(** * Conviva Experience Insights Prometheus exporter

    A shallow embedding of the two pipeline variants of the exporter:

    - [V3]  : [src/main.go], the v3 API (keyed metrics, one filter);
    - [V26] : [src/unnamed/part_001], the v2.6 API (positional metric rows,
      several filters).

    Both share the shape  upstream call -> [getQualityMetriclens] (parser)
    -> [updateMetrics] (emitter), driven by [Collect].

    The code calls two external Go packages.  [github.com/buger/jsonparser]
    is taken as an interface ([JsonParser]): every definition of the
    pipelines and every general theorem is parametric in how the library
    answers, so nothing depends on its internals.  A reference instance over
    parsed documents ([Doc]) gives concrete inputs.  Of
    [prometheus/client_golang] only [BuildFQName], [NewDesc] and
    [MustNewConstMetric] are used; they are modelled below with the panics
    the latter can raise. *)

From Stdlib Require Import String Ascii List Bool Arith NArith ZArith Lia PrimFloat.
From Stdlib Require SpecFloat FloatOps.
Import ListNotations.

Open Scope string_scope.
Open Scope list_scope.

Set Implicit Arguments.

(* ------------------------------------------------------------------ *)
(** ** Go run-time: errors, process outcomes *)

(** A Go [error] value, built by [errors.New]; [Error] is its message.
    A nil [error] is [None : option error]. *)
Record error : Type := errors_New { Error : string }.

(** How a call ends: it returns, or the whole process stops with
    [log.Fatalln] (message printed, then [os.Exit(1)]), or it panics. *)
Inductive outcome (A : Type) : Type :=
| Returns (a : A)
| Exits (msg : string)
| Panics (msg : string).

Arguments Exits {A} msg.
Arguments Panics {A} msg.

Definition bind {A B : Type} (m : outcome A) (k : A -> outcome B) : outcome B :=
  match m with
  | Returns a => k a
  | Exits msg => Exits msg
  | Panics msg => Panics msg
  end.

Notation "x <- m ;; k" := (bind m (fun x => k))
  (at level 61, m at next level, right associativity).

(** A Go [for]/callback loop whose body may stop the process: the state is
    threaded left to right and the first [Exits]/[Panics] ends the loop. *)
Fixpoint foldM {A S : Type} (body : S -> A -> outcome S) (s : S) (xs : list A)
  : outcome S :=
  match xs with
  | [] => Returns s
  | x :: xs' => s' <- body s x ;; foldM body s' xs'
  end.

(** Code that writes to the metrics channel [ch]: the samples sent so far,
    in order, and how the call ended. *)
Definition emit (A : Type) : Type := (list A * outcome unit)%type.

Definition emit_done {A : Type} : emit A := ([], Returns tt).

(** [ch <- m] where computing [m] may panic. *)
Definition send {A : Type} (m : outcome A) : emit A :=
  match m with
  | Returns a => ([a], Returns tt)
  | Exits msg => ([], Exits msg)
  | Panics msg => ([], Panics msg)
  end.

(** A step that may stop the process, followed by sends that use its
    result. *)
Definition emit_after {X A : Type} (m : outcome X) (k : X -> emit A) : emit A :=
  match m with
  | Returns x => k x
  | Exits msg => ([], Exits msg)
  | Panics msg => ([], Panics msg)
  end.

(** Go's [xs[i]] on a slice: a run-time panic when [i] is out of range. *)
Definition at_index {X : Type} (xs : list X) (i : nat) : outcome X :=
  match nth_error xs i with
  | Some x => Returns x
  | None => Panics "runtime error: index out of range"
  end.

(** Sequencing: the second part runs only if the first returned. *)
Definition and_then {A : Type} (first : emit A) (next : emit A) : emit A :=
  match first with
  | (sent, Returns _) => (sent ++ fst next, snd next)
  | (sent, stopped) => (sent, stopped)
  end.

(** A loop of sends over a slice, with the Go index [i] of each element. *)
Fixpoint for_each {A X : Type} (body : nat -> X -> emit A) (i : nat) (xs : list X)
  : emit A :=
  match xs with
  | [] => emit_done
  | x :: xs' => and_then (body i x) (for_each body (S i) xs')
  end.

(* ------------------------------------------------------------------ *)
(** ** unicode/utf8.ValidString

    Rocq strings are byte strings, as Go's.  The validator is the usual
    automaton over the well-formed byte sequences of UTF-8. *)

Inductive utf8_state : Type :=
| Utf8Start
| Utf8Expect (more : nat) (lo hi : N).

Definition in_range (lo hi c : N) : bool := (N.leb lo c && N.leb c hi)%bool.

Definition utf8_step (st : utf8_state) (c : N) : option utf8_state :=
  match st with
  | Utf8Start =>
      if N.ltb c 128 then Some Utf8Start
      else if in_range 194 223 c then Some (Utf8Expect 0 128 191)
      else if N.eqb c 224 then Some (Utf8Expect 1 160 191)
      else if in_range 225 236 c then Some (Utf8Expect 1 128 191)
      else if N.eqb c 237 then Some (Utf8Expect 1 128 159)
      else if in_range 238 239 c then Some (Utf8Expect 1 128 191)
      else if N.eqb c 240 then Some (Utf8Expect 2 144 191)
      else if in_range 241 243 c then Some (Utf8Expect 2 128 191)
      else if N.eqb c 244 then Some (Utf8Expect 2 128 143)
      else None
  | Utf8Expect more lo hi =>
      if in_range lo hi c then
        match more with
        | O => Some Utf8Start
        | S more' => Some (Utf8Expect more' 128 191)
        end
      else None
  end.

Fixpoint utf8_run (st : utf8_state) (s : string) : bool :=
  match s with
  | EmptyString => match st with Utf8Start => true | _ => false end
  | String c s' =>
      match utf8_step st (N_of_ascii c) with
      | Some st' => utf8_run st' s'
      | None => false
      end
  end.

Definition utf8_ValidString (s : string) : bool := utf8_run Utf8Start s.

(* ------------------------------------------------------------------ *)
(** ** prometheus/client_golang *)

(** [prometheus.BuildFQName]. *)
Definition BuildFQName (namespace subsystem name : string) : string :=
  if String.eqb name "" then ""
  else if negb (String.eqb namespace "") && negb (String.eqb subsystem "")
       then namespace ++ "_" ++ subsystem ++ "_" ++ name
  else if negb (String.eqb namespace "") then namespace ++ "_" ++ name
  else if negb (String.eqb subsystem "") then subsystem ++ "_" ++ name
  else name.

(** A [*prometheus.Desc] as [NewDesc] builds it (no constant labels are
    used by the exporter).  A nil pointer is [None : option Desc]. *)
Record Desc : Type := NewDesc {
  fqName : string;
  help : string;
  labelNames : list string
}.

Inductive ValueType : Type := CounterValue | GaugeValue | UntypedValue.

(** A constant metric: what is sent on the channel. *)
Record ConstMetric : Type := mkConstMetric {
  desc : Desc;
  valType : ValueType;
  val : float;
  labelValues : list string
}.

(** [prometheus.MustNewConstMetric]: [NewConstMetric] reads [desc.err]
    first, so a nil [desc] is a nil-pointer panic; then the label values must
    be as many as the variable labels and valid UTF-8, else the error is
    raised as a panic. *)
Definition MustNewConstMetric (d : option Desc) (valueType : ValueType)
    (value : float) (labels : list string) : outcome ConstMetric :=
  match d with
  | None => Panics "runtime error: invalid memory address or nil pointer dereference"
  | Some d' =>
      if negb (Nat.eqb (length labels) (length (labelNames d')))
      then Panics "inconsistent label cardinality"
      else if negb (forallb utf8_ValidString labels)
      then Panics "label value is not valid UTF-8"
      else Returns (mkConstMetric d' valueType value labels)
  end.

Definition namespace : string := "conviva_experience_insights".

Definition variableLabels : list string :=
  ["conviva_filter_id"; "metriclens_dimension_value"].

Definition exporterUp : Desc :=
  NewDesc (BuildFQName namespace "" "up")
          "Indicates if the scrape is successful. 1=Success, 0=Fail" [].

(* ------------------------------------------------------------------ *)
(** ** github.com/buger/jsonparser, as an interface

    [bytes] is the type of payload slices ([[]byte]).  Each operation gives
    what the Go call gives the exporter:

    - [GetString], [GetFloat]: the value and the error (nil = [None]);
    - [ArrayEach data keys]: the calls made to the callback, in order, each
      with the element slice and the [err] argument (the exporter drops the
      call's own result);
    - [ObjectEach data keys]: the calls made to the callback, each with the
      entry's key (as [string(key)]) and value slice; the exporter's
      callbacks always return nil, so iteration is never cut short by them;
    - [string_of]: the conversion [string(b)].

    The calls of the library are taken to return. *)
Class JsonParser (bytes : Type) : Type := {
  string_of : bytes -> string;
  GetString : bytes -> list string -> string * option error;
  GetFloat : bytes -> list string -> float * option error;
  ArrayEach : bytes -> list string -> list (bytes * option error);
  ObjectEach : bytes -> list string -> list (string * bytes)
}.

(** The result of the upstream call, as [getQualityMetriclens] sees it:
    [http.NewRequest], [client.Do] or reading the body failed with an
    error, or a response arrived with a status code and a body. *)
Inductive upstream (bytes : Type) : Type :=
| NewRequestError (err : error)
| DoError (err : error)
| ReadAllError (err : error)
| Response (StatusCode : Z) (body : bytes).

Arguments NewRequestError {bytes} err.
Arguments DoError {bytes} err.
Arguments ReadAllError {bytes} err.

(* ------------------------------------------------------------------ *)
(** ** The v3 pipeline ([src/main.go]) *)

Module V3.

(** Metric has a name and a value. *)
Record Metric : Type := mkMetric {
  metricName : string;
  value : float
}.

(** Dimension represents a dimension and has a list of metrics. *)
Record Dimension : Type := mkDimension {
  dimensionValue : string;
  metrics : list Metric
}.

(** MetricsData represents the API response. *)
Record MetricsData : Type := mkMetricsData {
  filterTitle : string;
  dimensionTitle : string;
  dimensions : list Dimension
}.

(** The map [metricDescriptions], as its literal lists it. *)
Definition metricDescriptions_entries : list (string * Desc) :=
  [ ("attempts",
     NewDesc (BuildFQName namespace "" "attempts")
       "Attempts counts all attempts to play a video which are initiated when a viewer clicks play or a video auto-plays."
       variableLabels);
    ("bitrate",
     NewDesc (BuildFQName namespace "" "average_bitrate")
       "Average bitrate calculates the bits played by the player. The bits played do not include bits in buffering or bits passed during paused video."
       variableLabels);
    ("connection_induced_rebuffering_ratio",
     NewDesc (BuildFQName namespace "" "connection_induced_rebuffering_ratio")
       "Connection Induced Rebuffering Ratio (CIRR) measures the percentage of total video viewing time (playTime plus all rebuffering) during which viewers experienced nonseek rebuffering."
       variableLabels);
    ("ended_plays",
     NewDesc (BuildFQName namespace "" "ended_plays")
       "An ended play is a play that ended during the selected interval. To count as an ended play, the viewing session must have at least one video frame that was viewed."
       variableLabels);
    ("exit_before_video_starts",
     NewDesc (BuildFQName namespace "" "exits_before_video_start")
       "Exits Before Video Start (EBVS) measures the Attempts that terminated before the video started, without a reported fatal error."
       variableLabels);
    ("plays",
     NewDesc (BuildFQName namespace "" "plays")
       "Plays (Successful Attempts) is counted when the viewer sees the first frame of video."
       variableLabels);
    ("rebuffering_ratio",
     NewDesc (BuildFQName namespace "" "rebuffering_ratio")
       "Rebuffering Ratio measures the percentage of total video viewing time (playTime + rebufferingTime) during which viewers experienced rebuffering."
       variableLabels);
    ("video_playback_failures",
     NewDesc (BuildFQName namespace "" "video_playback_failures")
       "Video playback failure occurs when video play terminates due to a playback error, such as video file corruption, insufficient streaming resources, or a sudden interruption in the video stream."
       variableLabels);
    ("video_start_failures",
     NewDesc (BuildFQName namespace "" "video_start_failures")
       "Video Start Failures (VSF) measures how often Attempts terminated during video startup before the first video frame was played, and a fatal error was reported."
       variableLabels);
    ("video_start_time",
     NewDesc (BuildFQName namespace "" "video_start_time")
       "Video Startup Time (VST) is the number of seconds between when the user clicks play or video auto-starts and when the first frame of a video is rendered."
       variableLabels) ].

(** The map lookup [metricDescriptions[key]]: the nil pointer when the key
    is not in the map. *)
Definition metricDescriptions (key : string) : option Desc :=
  option_map snd
    (find (fun entry => String.eqb (fst entry) key) metricDescriptions_entries).

(** The array [metrics]: the metric names the request asks for (the name
    [metrics] is taken by the field of [Dimension]). *)
Definition requested_metrics : list string :=
  [ "attempts";
    "video-start-failures";
    "exit-before-video-starts";
    "plays";
    "video-start-time";
    "rebuffering-ratio";
    "bitrate";
    "video-playback-failures";
    "ended-plays";
    "connection-induced-rebuffering-ratio" ].

(** Exporter is used to store metrics. *)
Record Exporter : Type := NewExporter {
  convivaBaseURL : string;
  convivaAPIVersion : string;
  convivaClientID : string;
  convivaClientSecret : string;
  convivaFilterID : string;
  convivaDimensionName : string
}.

(** The URL [getQualityMetriclens] requests: the fixed part, then the loop
    [qualityMetriclensEndpoint += "&metric=" + metrics[i]]. *)
Definition qualityMetriclensEndpoint (e : Exporter) : string :=
  fold_left (fun endpoint metric : string =>
               (endpoint ++ "&metric=" ++ metric)%string)
    requested_metrics
    (convivaBaseURL e ++ "/insights/" ++ convivaAPIVersion e
       ++ "/real-time-metrics/custom-selection/group-by/"
       ++ convivaDimensionName e
       ++ "?minutes=2&granularity=PT1M&filter_id=" ++ convivaFilterID e)%string.

(** [Describe] provides the Conviva metrics to prometheus.Describe: the
    descriptors sent on the channel.  Go ranges over the map in an
    unspecified order; the literal's order stands for it here, and only
    membership is stated about the ten. *)
Definition Describe : list Desc :=
  map snd metricDescriptions_entries ++ [exporterUp].

Section Pipeline.

Context {bytes : Type} {parser : JsonParser bytes}.

(** The [switch metric.metricName] of the metrics callback.  It gives the
    new [metric.value] (zero when no assignment is made) and the new value of
    the [err] variable of the enclosing row callback, which every case but
    "bitrate" and the default assigns.  The "bitrate" case declares an [err]
    of its own and assigns [bps / 1000] only when that one is not nil. *)
Definition switch_metricName (metricName : string) (value : bytes)
    (err : option error) : float * option error :=
  if String.eqb metricName "attempts" then GetFloat value ["count"]
  else if String.eqb metricName "bitrate" then
    let '(bps, err') := GetFloat value ["bps"] in
    (match err' with
     | Some _ => (bps / 1000)%float
     | None => 0%float
     end, err)
  else if String.eqb metricName "connection_induced_rebuffering_ratio"
  then GetFloat value ["ratio"]
  else if String.eqb metricName "ended_plays" then GetFloat value ["count"]
  else if String.eqb metricName "exit_before_video_starts"
  then GetFloat value ["percentage"]
  else if String.eqb metricName "plays" then GetFloat value ["percentage"]
  else if String.eqb metricName "rebuffering_ratio" then GetFloat value ["ratio"]
  else if String.eqb metricName "video_playback_failures"
  then GetFloat value ["percentage"]
  else if String.eqb metricName "video_start_failures"
  then GetFloat value ["percentage"]
  else if String.eqb metricName "video_start_time" then GetFloat value ["value"]
  else (0%float, err).

(** The callback of [ObjectEach(dimensionalDataRow, ..., "metrics")], for
    one entry.  Its state is the captured [err] of the row callback and
    [dimension.metrics]. *)
Definition metricsCallback (st : option error * list Metric)
    (entry : string * bytes) : outcome (option error * list Metric) :=
  let '(err, dimension_metrics) := st in
  let '(metricName, value) := entry in
  match err with
  | Some _ => Exits "Could not get time_series[0].dimensional_data.metrics"
  | None =>
      let '(metric_value, err) := switch_metricName metricName value err in
      Returns (err, dimension_metrics ++ [mkMetric metricName metric_value])
  end.

(** The callback of [ArrayEach(body, ..., "time_series", "[0]",
    "dimensional_data")], for one call; its state is
    [qualityMetriclensData.dimensions]. *)
Definition dimensionCallback (data_dimensions : list Dimension)
    (call : bytes * option error) : outcome (list Dimension) :=
  let '(dimensionalDataRow, err) := call in
  match err with
  | Some _ => Exits "Could not get time_series[0].dimensional_data"
  | None =>
      let '(dimension_dimensionValue, err) :=
        GetString dimensionalDataRow ["dimension"; "value"] in
      match err with
      | Some _ =>
          Exits "Could not get time_series[0].dimensional_data.dimension.value"
      | None =>
          st <- foldM metricsCallback (err, [])
                  (ObjectEach dimensionalDataRow ["metrics"]) ;;
          Returns (data_dimensions
                     ++ [mkDimension dimension_dimensionValue (snd st)])
      end
  end.

(** [getQualityMetriclens]: the Go result, a [MetricsData] pointer and an
    [error], is [inl data] for [(data, nil)] and [inr err] for [(nil, err)]. *)
Definition getQualityMetriclens (resp : upstream bytes)
  : outcome (MetricsData + error) :=
  match resp with
  | NewRequestError err => Returns (inr err)
  | DoError err => Returns (inr err)
  | ReadAllError err => Returns (inr err)
  | Response StatusCode body =>
      if negb (Z.eqb StatusCode 200) then
        let '(reason, err) := GetString body ["name"] in
        Returns (inr match err with
                     | None => errors_New ("Invalid response from API. Reason: " ++ reason)
                     | Some err => err
                     end)
      else
        let '(dimensionName, err) :=
          GetString body ["_meta"; "group_by_dimension"; "description"] in
        let dimensionName :=
          match err with Some _ => "Unknown" | None => dimensionName end in
        let data_dimensionTitle := dimensionName in
        let '(filterId, err) :=
          GetString body ["_meta"; "filter_info"; "id"] in
        let dimensionName :=
          match err with Some _ => "Unknown" | None => dimensionName end in
        let data_filterTitle := filterId in
        data_dimensions <-
          foldM dimensionCallback []
            (ArrayEach body ["time_series"; "[0]"; "dimensional_data"]) ;;
        Returns (inl (mkMetricsData data_filterTitle data_dimensionTitle
                        data_dimensions))
  end.

(** The inner loop of [updateMetrics], over [dimension.metrics]. *)
Definition updateMetrics_dimension (filterTitle : string) (dimension : Dimension)
  : emit ConstMetric :=
  for_each
    (fun (k : nat) (metric : Metric) =>
       send (MustNewConstMetric (metricDescriptions (metricName metric))
               GaugeValue (value metric)
               [filterTitle; dimensionValue dimension]))
    0 (metrics dimension).

(** [updateMetrics] reports all metrics to Prometheus. *)
Definition updateMetrics (data : MetricsData) : emit ConstMetric :=
  for_each
    (fun (j : nat) (dimension : Dimension) =>
       updateMetrics_dimension (filterTitle data) dimension)
    0 (dimensions data).

(** [Collect] is called by the Prometheus client library when a scrape is
    performed. *)
Definition Collect (resp : upstream bytes) : emit ConstMetric :=
  match getQualityMetriclens resp with
  | Returns (inr err) =>
      send (MustNewConstMetric (Some exporterUp) GaugeValue 0%float [])
  | Returns (inl qualityMetriclensData) =>
      and_then (send (MustNewConstMetric (Some exporterUp) GaugeValue 1%float []))
               (updateMetrics qualityMetriclensData)
  | Exits msg => ([], Exits msg)
  | Panics msg => ([], Panics msg)
  end.

End Pipeline.

End V3.

(* ------------------------------------------------------------------ *)
(** ** The v2.6 pipeline ([src/unnamed/part_001]) *)

Module V26.

(** The slice [metricDescriptions]: the metric of position [k] in a row. *)
Definition metricDescriptions : list Desc :=
  [ NewDesc (BuildFQName namespace "" "attempts")
      "Attempts counts all attempts to play a video which are initiated when a viewer clicks play or a video auto-plays."
      variableLabels;
    NewDesc (BuildFQName namespace "" "video_start_failures")
      "Video Start Failures (VSF) measures how often Attempts terminated during video startup before the first video frame was played, and a fatal error was reported."
      variableLabels;
    NewDesc (BuildFQName namespace "" "exits_before_video_start")
      "Exits Before Video Start (EBVS) measures the Attempts that terminated before the video started, without a reported fatal error."
      variableLabels;
    NewDesc (BuildFQName namespace "" "plays")
      "Plays (Successful Attempts) is counted when the viewer sees the first frame of video."
      variableLabels;
    NewDesc (BuildFQName namespace "" "video_start_time")
      "Video Startup Time (VST) is the number of seconds between when the user clicks play or video auto-starts and when the first frame of a video is rendered."
      variableLabels;
    NewDesc (BuildFQName namespace "" "rebuffering_ratio")
      "Rebuffering Ratio measures the percentage of total video viewing time (playTime + rebufferingTime) during which viewers experienced rebuffering."
      variableLabels;
    NewDesc (BuildFQName namespace "" "average_bitrate")
      "Average bitrate calculates the bits played by the player. The bits played do not include bits in buffering or bits passed during paused video."
      variableLabels;
    NewDesc (BuildFQName namespace "" "video_playback_failures")
      "Video playback failure occurs when video play terminates due to a playback error, such as video file corruption, insufficient streaming resources, or a sudden interruption in the video stream."
      variableLabels;
    NewDesc (BuildFQName namespace "" "ended_plays")
      "An ended play is a play that ended during the selected interval. To count as an ended play, the viewing session must have at least one video frame that was viewed."
      variableLabels;
    NewDesc (BuildFQName namespace "" "connection_induced_rebuffering_ratio")
      "Connection Induced Rebuffering Ratio (CIRR) measures the percentage of total video viewing time (playTime plus all rebuffering) during which viewers experienced nonseek rebuffering."
      variableLabels;
    NewDesc (BuildFQName namespace "" "video_restart_time")
      "Video Restart Time (VRT) is the number of seconds after user-initiated seeking until video begins playing."
      variableLabels;
    NewDesc (BuildFQName namespace "" "video_start_failures_technical")
      "Video Start Failures (VSF-T) measures how often Attempts terminated during video startup before the first video frame was played, and a fatal error was reported due to a technical issue, such as prolonged buffering."
      variableLabels;
    NewDesc (BuildFQName namespace "" "video_start_failures_business")
      "VSFs with at least one error message that matches the configured business errors are counted in the Video Start Failures Business (VPF-B) metric."
      variableLabels;
    NewDesc (BuildFQName namespace "" "video_playback_failures_technical")
      "VPFs with errors that match the configured business errors are not counted as VPF-T, but count towards the Video Playback Failures Business (VPF-B) metric."
      variableLabels;
    NewDesc (BuildFQName namespace "" "video_playback_failures_business")
      "VPFs with at least one error message that matches the configured business errors are counted in the Video Playback Failures Business (VPF-B) metric."
      variableLabels ].

(** Dimension represents a dimension and has a list of metrics. *)
Record Dimension : Type := mkDimension {
  metrics : list float
}.

(** FilterTable represents a filter and keeps tables of metrics, grouped by
    dimensions. *)
Record FilterTable : Type := mkFilterTable {
  filterID : string;
  dimensions : list Dimension
}.

(** QualityMetricLensData represents the API response. *)
Record QualityMetricLensData : Type := mkQualityMetricLensData {
  filters : list FilterTable;
  dimensionTitles : list string
}.

(** [Describe] provides the Conviva metrics to prometheus.Describe: the
    descriptors sent on the channel, in order. *)
Definition Describe : list Desc := metricDescriptions ++ [exporterUp].

Section Pipeline.

Context {bytes : Type} {parser : JsonParser bytes}.

(** Callback of the warm-up check: any call with a nil [err] sets
    [isWarmingUp]. *)
Definition warmupCallback (isWarmingUp : bool) (call : bytes * option error)
  : bool :=
  match snd call with
  | None => true
  | Some _ => isWarmingUp
  end.

(** Callback that parses the dimension titles. *)
Definition titlesCallback (dimensionTitles : list string)
    (call : bytes * option error) : list string :=
  match snd call with
  | None => dimensionTitles ++ [string_of (fst call)]
  | Some _ => dimensionTitles
  end.

(** Callback for each metric in a dimension row. *)
Definition metricCallback (metricsRow : list float)
    (call : bytes * option error) : list float :=
  let '(metricVal, err) := call in
  match err with
  | Some _ => metricsRow
  | None =>
      let '(metricFloat, err) := GetFloat metricVal [] in
      match err with
      | Some _ => metricsRow
      | None => metricsRow ++ [metricFloat]
      end
  end.

(** Callback for each dimension row in a filter. *)
Definition dimensionCallback (filterTable_dimensions : list Dimension)
    (call : bytes * option error) : list Dimension :=
  let '(dimensionRow, err) := call in
  match err with
  | Some _ => filterTable_dimensions
  | None =>
      let metricsRow := fold_left metricCallback (ArrayEach dimensionRow []) [] in
      filterTable_dimensions ++ [mkDimension metricsRow]
  end.

(** Callback for each filter of [quality_metriclens.tables]. *)
Definition filterCallback (body : bytes) (data_filters : list FilterTable)
    (entry : string * bytes) : list FilterTable :=
  let '(key, value) := entry in
  let filterID := key in
  let filterTable_dimensions :=
    fold_left dimensionCallback
      (ArrayEach body ["quality_metriclens"; "tables"; filterID; "rows"]) [] in
  data_filters ++ [mkFilterTable filterID filterTable_dimensions].

(** [getQualityMetriclens]: [inl data] is the Go result [(data, nil)] and
    [inr err] is [(nil, err)]. *)
Definition getQualityMetriclens (resp : upstream bytes)
  : outcome (QualityMetricLensData + error) :=
  match resp with
  | NewRequestError err => Returns (inr err)
  | DoError err => Returns (inr err)
  | ReadAllError err => Returns (inr err)
  | Response StatusCode body =>
      if negb (Z.eqb StatusCode 200) then
        let '(reason, err) := GetString body ["reason"] in
        Returns (inr match err with
                     | None => errors_New ("Invalid response from API. Reason: " ++ reason)
                     | Some err => err
                     end)
      else
        let isWarmingUp :=
          fold_left warmupCallback
            (ArrayEach body ["quality_metriclens"; "meta"; "filters_warmup"])
            false in
        if isWarmingUp then Returns (inr (errors_New "filter is warming up"))
        else
          let data_dimensionTitles :=
            fold_left titlesCallback
              (ArrayEach body ["quality_metriclens"; "xvalues"]) [] in
          let data_filters :=
            fold_left (filterCallback body)
              (ObjectEach body ["quality_metriclens"; "tables"]) [] in
          Returns (inl (mkQualityMetricLensData data_filters data_dimensionTitles))
  end.

(** Innermost loop of [updateMetrics]: all metrics in the dimension. *)
Definition updateMetrics_dimension (filterID dimensionTitle : string)
    (dimension : Dimension) : emit ConstMetric :=
  for_each
    (fun (k : nat) (metricValue : float) =>
       emit_after (at_index metricDescriptions k)
         (fun d =>
            send (MustNewConstMetric (Some d) GaugeValue metricValue
                    [filterID; dimensionTitle])))
    0 (metrics dimension).

(** Middle loop of [updateMetrics]: all dimensions of a filter. *)
Definition updateMetrics_filter (dimensionTitles : list string)
    (filter : FilterTable) : emit ConstMetric :=
  for_each
    (fun (j : nat) (dimension : Dimension) =>
       emit_after (at_index dimensionTitles j)
         (fun dimensionTitle =>
            updateMetrics_dimension (filterID filter) dimensionTitle dimension))
    0 (dimensions filter).

(** [updateMetrics] reports all metrics to Prometheus. *)
Definition updateMetrics (data : QualityMetricLensData) : emit ConstMetric :=
  for_each
    (fun (i : nat) (filter : FilterTable) =>
       updateMetrics_filter (dimensionTitles data) filter)
    0 (filters data).

(** [Collect] is called by the Prometheus client library when a scrape is
    performed. *)
Definition Collect (resp : upstream bytes) : emit ConstMetric :=
  match getQualityMetriclens resp with
  | Returns (inr err) =>
      send (MustNewConstMetric (Some exporterUp) GaugeValue 0%float [])
  | Returns (inl qualityMetriclensData) =>
      and_then (send (MustNewConstMetric (Some exporterUp) GaugeValue 1%float []))
               (updateMetrics qualityMetriclensData)
  | Exits msg => ([], Exits msg)
  | Panics msg => ([], Panics msg)
  end.

End Pipeline.

End V26.

(* ------------------------------------------------------------------ *)
(** ** A reference reading of jsonparser over parsed documents

    A payload is given by the JSON value it spells; [JText] stands for raw
    bytes: a region that spells no JSON value (an HTML error page, a
    truncated tail), or the slice a callback receives for a string, which is
    the content of the string without its quotes.  A number is its token; the
    [float64] read from it is computed from the token as
    [strconv.ParseFloat] does (Go 1.13 and later): Go's decimal and
    hexadecimal syntax with underscores, the signed infinities, correct
    rounding to nearest even, and an error when the value overflows.

    The reading is the library's on documents whose visited regions have
    the JSON type the exporter asks for (arrays where it iterates arrays,
    objects where it iterates objects) and whose strings hold no quote,
    backslash, bracket or brace; byte-level accidents on other shapes are
    covered by the interface only.  Where a read fails, that it fails and the
    zero value are the library's; the text of the error is the library's for
    a missing key path and for number, boolean and null tokens. *)

Module Doc.

#[local] Unset Elimination Schemes.

Inductive json : Type :=
| JNull
| JBool (b : bool)
| JNumber (literal : string)
| JString (s : string)
| JArray (items : list json)
| JObject (fields : list (string * json))
| JText (text : string).

#[local] Set Elimination Schemes.

Definition KeyPathNotFoundError : error := errors_New "Key path not found".

Definition UnknownValueTypeError : error := errors_New "Unknown value type".

Definition MalformedJsonError : error := errors_New "Malformed JSON error".

Definition MalformedValueError : error :=
  errors_New "Value looks like Number/Boolean/None, but can't find its end: ',' or '}' symbol".

Definition quote : string := String (ascii_of_nat 34) EmptyString.

Fixpoint join (sep : string) (parts : list string) : string :=
  match parts with
  | [] => ""
  | [p] => p
  | p :: rest => p ++ sep ++ join sep rest
  end.

(** The bytes of a value. *)
Fixpoint render (v : json) : string :=
  match v with
  | JNull => "null"
  | JBool true => "true"
  | JBool false => "false"
  | JNumber literal => literal
  | JString s => quote ++ s ++ quote
  | JArray items => "[" ++ join "," (map render items) ++ "]"
  | JObject fields =>
      "{" ++ join ","
               (map (fun kv =>
                       (quote ++ fst kv ++ quote ++ ":" ++ render (snd kv))%string)
                    fields)
          ++ "}"
  | JText text => text
  end.

(** [string(b)] for a payload or for the slice a callback receives. *)
Definition doc_string_of (v : json) : string :=
  match v with
  | JString s => s
  | _ => render v
  end.

Definition is_digit (c : ascii) : bool :=
  (Nat.leb 48 (nat_of_ascii c) && Nat.leb (nat_of_ascii c) 57)%bool.

Fixpoint index_digits (acc : nat) (s : string) : option nat :=
  match s with
  | EmptyString => None
  | String c EmptyString =>
      if Ascii.eqb c "]"%char then Some acc else None
  | String c s' =>
      if is_digit c
      then index_digits (10 * acc + (nat_of_ascii c - 48)) s'
      else None
  end.

(** A key of the form [[n]] addresses the element [n] of an array. *)
Definition array_index (key : string) : option nat :=
  match key with
  | String b (String d rest) =>
      if (Ascii.eqb b "["%char && is_digit d)%bool
      then index_digits 0 (String d rest)
      else None
  | _ => None
  end.

Definition field (key : string) (fields : list (string * json)) : option json :=
  option_map snd (find (fun kv => String.eqb (fst kv) key) fields).

(** The value at a key path (the library's [searchKeys]): object fields by
    name, first match; array elements by [[n]]. *)
Fixpoint get (keys : list string) (v : json) : option json :=
  match keys with
  | [] => Some v
  | key :: keys' =>
      match v with
      | JObject fields =>
          match field key fields with
          | Some v' => get keys' v'
          | None => None
          end
      | JArray items =>
          match array_index key with
          | Some n =>
              match nth_error items n with
              | Some v' => get keys' v'
              | None => None
              end
          | None => None
          end
      | _ => None
      end
  end.

Definition doc_GetString (data : json) (keys : list string)
  : string * option error :=
  match get keys data with
  | Some (JString s) => (s, None)
  | Some v => ("", Some (errors_New ("Value is not a string: " ++ doc_string_of v)))
  | None => ("", Some KeyPathNotFoundError)
  end.

(** *** strconv.ParseFloat(s, 64)

    [readFloat] follows Go's function of that name: sign, base prefix, the
    digits with their point, the exponent, and the check of the
    underscores.  It keeps every digit of the mantissa, so that the value is
    [mant] times 10 (or 2, in hexadecimal) to the power [exp] exactly. *)

Definition lower (c : N) : N := N.lor c 32.

Definition is_decimal (c : N) : bool := (N.leb 48 c && N.leb c 57)%bool.

Definition is_hex_letter (c : N) : bool :=
  (N.leb 97 (lower c) && N.leb (lower c) 102)%bool.

Record scan : Type := mkScan {
  sawdot : bool;
  sawdigits : bool;
  nd : Z;
  dp : Z;
  mantissa : N
}.

Fixpoint scan_digits (hex : bool) (st : scan) (s : string) : scan * string :=
  match s with
  | EmptyString => (st, s)
  | String a s' =>
      let c := N_of_ascii a in
      if N.eqb c 95 then scan_digits hex st s'
      else if N.eqb c 46 then
        if sawdot st then (st, s)
        else scan_digits hex
               (mkScan true (sawdigits st) (nd st) (nd st) (mantissa st)) s'
      else if is_decimal c then
        if (N.eqb c 48 && Z.eqb (nd st) 0)%bool
        then scan_digits hex
               (mkScan (sawdot st) true (nd st) (dp st - 1) (mantissa st)) s'
        else scan_digits hex
               (mkScan (sawdot st) true (nd st + 1) (dp st)
                  (mantissa st * (if hex then 16 else 10) + (c - 48))) s'
      else if (hex && is_hex_letter c)%bool then
        scan_digits hex
          (mkScan (sawdot st) true (nd st + 1) (dp st)
             (mantissa st * 16 + (lower c - 97 + 10))) s'
      else (st, s)
  end.

Fixpoint scan_exponent (e : Z) (s : string) : Z * string :=
  match s with
  | EmptyString => (e, s)
  | String a s' =>
      let c := N_of_ascii a in
      if N.eqb c 95 then scan_exponent e s'
      else if is_decimal c
      then scan_exponent (if Z.ltb e 10000 then e * 10 + Z.of_N (c - 48) else e) s'
      else (e, s)
  end.

Inductive saw_state : Type := SawStart | SawDigit | SawUnderscore | SawOther.

Fixpoint underscore_loop (hex : bool) (saw : saw_state) (s : string) : bool :=
  match s with
  | EmptyString => match saw with SawUnderscore => false | _ => true end
  | String a s' =>
      let c := N_of_ascii a in
      if (is_decimal c || (hex && is_hex_letter c))%bool
      then underscore_loop hex SawDigit s'
      else if N.eqb c 95 then
        match saw with
        | SawDigit => underscore_loop hex SawUnderscore s'
        | _ => false
        end
      else match saw with
           | SawUnderscore => false
           | _ => underscore_loop hex SawOther s'
           end
  end.

Definition drop_sign (s : string) : bool * string :=
  match s with
  | String a s' =>
      if N.eqb (N_of_ascii a) 45 then (true, s')
      else if N.eqb (N_of_ascii a) 43 then (false, s')
      else (false, s)
  | EmptyString => (false, s)
  end.

Definition underscoreOK (s : string) : bool :=
  let s := snd (drop_sign s) in
  match s with
  | String z (String x rest) =>
      if (N.eqb (N_of_ascii z) 48
          && (N.eqb (lower (N_of_ascii x)) 98 || N.eqb (lower (N_of_ascii x)) 111
              || N.eqb (lower (N_of_ascii x)) 120))%bool
      then underscore_loop (N.eqb (lower (N_of_ascii x)) 120) SawDigit rest
      else underscore_loop false SawStart s
  | _ => underscore_loop false SawStart s
  end.

(** What was read of a number: its value is [mant] times the base to the
    power [exp]; [point] is the position of the decimal point against the
    digits, which decides the values out of range. *)
Record float_literal : Type := mkFloatLiteral {
  neg : bool;
  hex : bool;
  mant : N;
  exp : Z;
  point : Z
}.

Definition readFloat (s : string) : option float_literal :=
  match s with
  | EmptyString => None
  | _ =>
      let '(neg, s1) := drop_sign s in
      let '(hex, s2) :=
        match s1 with
        | String z (String x (String c rest)) =>
            if (N.eqb (N_of_ascii z) 48 && N.eqb (lower (N_of_ascii x)) 120)%bool
            then (true, String c rest)
            else (false, s1)
        | _ => (false, s1)
        end in
      let '(st, s3) := scan_digits hex (mkScan false false 0 0 0) s2 in
      if negb (sawdigits st) then None
      else
        let dp := if sawdot st then dp st else nd st in
        let '(dp, ndMant) := if hex then (dp * 4, nd st * 4)%Z else (dp, nd st) in
        let after :=
          match s3 with
          | String a s4 =>
              if N.eqb (lower (N_of_ascii a)) (if hex then 112 else 101) then
                match s4 with
                | EmptyString => None
                | String b s5 =>
                    let '(esign, s6) :=
                      if N.eqb (N_of_ascii b) 43 then (1%Z, s5)
                      else if N.eqb (N_of_ascii b) 45 then ((-1)%Z, s5)
                      else (1%Z, s4) in
                    match s6 with
                    | String d _ =>
                        if is_decimal (N_of_ascii d) then
                          let '(e, s7) := scan_exponent 0 s6 in
                          Some ((dp + e * esign)%Z, s7)
                        else None
                    | EmptyString => None
                    end
                end
              else if hex then None
              else Some (dp, s3)
          | EmptyString => if hex then None else Some (dp, s3)
          end in
        match after with
        | Some (dp, EmptyString) =>
            if underscoreOK s
            then Some (mkFloatLiteral neg hex (mantissa st)
                         (if N.eqb (mantissa st) 0 then 0 else dp - ndMant) dp)
            else None
        | _ => None
        end
  end.

Fixpoint lower_string (s : string) : string :=
  match s with
  | EmptyString => EmptyString
  | String a s' => String (ascii_of_N (lower (N_of_ascii a))) (lower_string s')
  end.

(** Go's [special]: the infinities, signed or not, and NaN. *)
Definition special (s : string) : option float :=
  let '(neg, rest) := drop_sign s in
  let body := lower_string rest in
  if (String.eqb body "inf" || String.eqb body "infinity")%bool
  then Some (if neg then neg_infinity else infinity)
  else if String.eqb (lower_string s) "nan" then Some nan
  else None.

(** The binary64 nearest to the exact value, ties to even; decimal values
    beyond the range are settled by the position of the point, as in Go. *)
Definition rounded (n : float_literal) : SpecFloat.spec_float :=
  match mant n with
  | N0 => SpecFloat.S754_zero (neg n)
  | Npos m =>
      if hex n then SpecFloat.binary_round FloatOps.prec FloatOps.emax (neg n) m (exp n)
      else if Z.ltb 310 (point n) then SpecFloat.S754_infinity (neg n)
      else if Z.ltb (point n) (-330) then SpecFloat.S754_zero (neg n)
      else match exp n with
           | Zneg k =>
               SpecFloat.SFdiv FloatOps.prec FloatOps.emax
                 (SpecFloat.S754_finite (neg n) m 0)
                 (SpecFloat.S754_finite false (Pos.pow 10 k) 0)
           | Z0 => SpecFloat.binary_round FloatOps.prec FloatOps.emax (neg n) m 0
           | Zpos k =>
               SpecFloat.binary_round FloatOps.prec FloatOps.emax (neg n)
                 (m * Pos.pow 10 k) 0
           end
  end.

(** [strconv.ParseFloat(s, 64)]: [None] for its errors (syntax, or a value
    out of range). *)
Definition ParseFloat (s : string) : option float :=
  match special s with
  | Some f => Some f
  | None =>
      match readFloat s with
      | None => None
      | Some n =>
          match rounded n with
          | SpecFloat.S754_infinity _ => None
          | v => Some (FloatOps.SF2Prim v)
          end
      end
  end.

(** *** Reading a number from raw bytes

    The library skips white space ([nextToken]), types the value by its
    first byte and finds its end ([getType]), and parses a number token with
    [ParseFloat]. *)

Definition MalformedStringError : error :=
  errors_New (String.append "Value is string, but can't find closing '"
                (String.append quote "' symbol")).

Definition MalformedArrayError : error :=
  errors_New "Value is array, but can't find closing ']' symbol".

Definition MalformedObjectError : error :=
  errors_New "Value looks like object, but can't find closing '}' symbol".

Inductive ValueType : Type :=
| String_ | Number | Object | Array | Boolean | Null.

Definition is_space (c : N) : bool :=
  (N.eqb c 32 || N.eqb c 10 || N.eqb c 13 || N.eqb c 9)%bool.

Definition is_delimiter (c : N) : bool :=
  (is_space c || N.eqb c 44 || N.eqb c 125 || N.eqb c 93)%bool.

Fixpoint nextToken (s : string) : string :=
  match s with
  | EmptyString => s
  | String a s' => if is_space (N_of_ascii a) then nextToken s' else s
  end.

(** The bytes before the first delimiter ([tokenEnd]). *)
Fixpoint token (s : string) : string :=
  match s with
  | EmptyString => EmptyString
  | String a s' =>
      if is_delimiter (N_of_ascii a) then EmptyString else String a (token s')
  end.

(** The bytes before the closing quote ([stringEnd]): the first quote that
    follows an even number of backslashes; [odd] tells that an odd number
    of them was just read. *)
Fixpoint stringEnd (odd : bool) (s : string) : option string :=
  match s with
  | EmptyString => None
  | String a s' =>
      let c := N_of_ascii a in
      if (N.eqb c 34 && negb odd)%bool then Some EmptyString
      else option_map (String a) (stringEnd (N.eqb c 92 && negb odd) s')
  end.

(** The bytes up to the symbol that closes the block ([blockEnd]); strings
    are skipped.  [level] counts the open blocks, [in_string] tells that a
    string is being skipped. *)
Fixpoint blockEnd (openSym closeSym : N) (level : nat) (in_string odd : bool)
    (s : string) : option string :=
  match s with
  | EmptyString => None
  | String a s' =>
      let c := N_of_ascii a in
      let next level in_string odd :=
        option_map (String a) (blockEnd openSym closeSym level in_string odd s') in
      if in_string then
        if (N.eqb c 34 && negb odd)%bool then next level false false
        else next level true (N.eqb c 92 && negb odd)%bool
      else if N.eqb c 34 then next level true false
      else if N.eqb c openSym then next (S level) false false
      else if N.eqb c closeSym then
        if Nat.eqb level 1 then Some (String a EmptyString)
        else next (Nat.pred level) false false
      else next level false false
  end.

(** [getType] on bytes that start at a value, with the quotes of a string
    taken off as [Get] does. *)
Definition getType (s : string) : (string * ValueType) + error :=
  match s with
  | EmptyString => inr MalformedJsonError
  | String a rest =>
      let c := N_of_ascii a in
      if N.eqb c 34 then
        match stringEnd false rest with
        | Some content => inl (content, String_)
        | None => inr MalformedStringError
        end
      else if N.eqb c 91 then
        match blockEnd 91 93 0 false false s with
        | Some value => inl (value, Array)
        | None => inr MalformedArrayError
        end
      else if N.eqb c 123 then
        match blockEnd 123 125 0 false false s with
        | Some value => inl (value, Object)
        | None => inr MalformedObjectError
        end
      else
        let value := token s in
        if (N.eqb c 116 || N.eqb c 102)%bool then
          if (String.eqb value "true" || String.eqb value "false")%bool
          then inl (value, Boolean)
          else inr UnknownValueTypeError
        else if (N.eqb c 117 || N.eqb c 110)%bool then
          if String.eqb value "null"
          then inl (value, Null)
          else inr UnknownValueTypeError
        else if (is_decimal c || N.eqb c 45)%bool then inl (value, Number)
        else inr UnknownValueTypeError
  end.

Definition not_a_number (value : string) : error :=
  errors_New ("Value is not a number: " ++ value).

(** [GetFloat(bytes)], with no key. *)
Definition read_float (bytes : string) : float * option error :=
  match getType (nextToken bytes) with
  | inr e => (0%float, Some e)
  | inl (value, Number) =>
      match ParseFloat value with
      | Some f => (f, None)
      | None => (0%float, Some MalformedValueError)
      end
  | inl (value, _) => (0%float, Some (not_a_number value))
  end.

Definition doc_GetFloat (data : json) (keys : list string)
  : float * option error :=
  match get keys data with
  | Some (JNumber literal) => read_float literal
  | Some (JText text) => read_float text
  | Some v => (0%float, Some (not_a_number (doc_string_of v)))
  | None => (0%float, Some KeyPathNotFoundError)
  end.

Definition is_text (v : json) : bool :=
  match v with
  | JText _ => true
  | _ => false
  end.

(** The slice a callback receives for a value: for a string its content,
    without the quotes. *)
Definition slice (v : json) : json :=
  match v with
  | JString s => JText s
  | _ => v
  end.

(** Elements are visited in order until one that spells no value; the
    callback is only called with a nil [err]. *)
Fixpoint each_value (items : list json) : list (json * option error) :=
  match items with
  | [] => []
  | v :: items' => if is_text v then [] else (slice v, None) :: each_value items'
  end.

Definition doc_ArrayEach (data : json) (keys : list string)
  : list (json * option error) :=
  match get keys data with
  | Some (JArray items) => each_value items
  | _ => []
  end.

Fixpoint each_entry (fields : list (string * json)) : list (string * json) :=
  match fields with
  | [] => []
  | kv :: fields' =>
      if is_text (snd kv) then [] else (fst kv, slice (snd kv)) :: each_entry fields'
  end.

Definition doc_ObjectEach (data : json) (keys : list string)
  : list (string * json) :=
  match get keys data with
  | Some (JObject fields) => each_entry fields
  | _ => []
  end.

#[global] Instance doc_parser : JsonParser json := {
  string_of := doc_string_of;
  GetString := doc_GetString;
  GetFloat := doc_GetFloat;
  ArrayEach := doc_ArrayEach;
  ObjectEach := doc_ObjectEach
}.

End Doc.

(* ------------------------------------------------------------------ *)
(** ** Vocabulary of the statements *)

(** The liveness sample [up], with its value. *)
Definition liveness (v : float) : ConstMetric :=
  mkConstMetric exporterUp GaugeValue v [].

(** A data sample: a gauge with the two labels. *)
Definition gauge (d : Desc) (v : float) (filter dimension : string) : ConstMetric :=
  mkConstMetric d GaugeValue v [filter; dimension].

(** A whole-scrape error met before the payload is walked: the request
    could not be made or read, or the status is not 200. *)
Definition failed_before_parsing {bytes : Type} (resp : upstream bytes) : bool :=
  match resp with
  | Response StatusCode _ => negb (Z.eqb StatusCode 200)
  | _ => true
  end.

(** [needle] occurs in [text] (Go's [strings.Contains]). *)
Definition contains (text needle : string) : bool :=
  match String.index 0 needle text with
  | Some _ => true
  | None => false
  end.

(** The error of a failed upstream response in terms of what [GetString]
    answered for the reason field. *)
Definition upstream_error (answer : string * option error) : error :=
  match answer with
  | (reason, None) => errors_New ("Invalid response from API. Reason: " ++ reason)
  | (_, Some err) => err
  end.

(** The extraction rules of the v3 [switch] that copy a sub-field as it
    is: metric key and the name of the sub-field. *)
Definition copied_fields : list (string * string) :=
  [ ("attempts", "count");
    ("connection_induced_rebuffering_ratio", "ratio");
    ("ended_plays", "count");
    ("exit_before_video_starts", "percentage");
    ("plays", "percentage");
    ("rebuffering_ratio", "ratio");
    ("video_playback_failures", "percentage");
    ("video_start_failures", "percentage");
    ("video_start_time", "value") ].

(** The samples of a v2.6 result when both sequences are walked by
    position as far as the shorter one reaches: values against
    [metricDescriptions], rows against the titles. *)
Definition aligned_row (filter title : string) (row : V26.Dimension)
  : list ConstMetric :=
  map (fun dv => gauge (fst dv) (snd dv) filter title)
      (combine V26.metricDescriptions (V26.metrics row)).

Definition aligned_filter (titles : list string) (filter : V26.FilterTable)
  : list ConstMetric :=
  flat_map (fun tr => aligned_row (V26.filterID filter) (fst tr) (snd tr))
           (combine titles (V26.dimensions filter)).

Definition aligned (data : V26.QualityMetricLensData) : list ConstMetric :=
  flat_map (aligned_filter (V26.dimensionTitles data)) (V26.filters data).

(** What the v2.6 emitter needs of a result to get through it: a title
    for every row, a descriptor for every value, label values in UTF-8. *)
Definition row_fits (row : V26.Dimension) : bool :=
  Nat.leb (length (V26.metrics row)) (length V26.metricDescriptions).

Definition filter_fits (titles : list string) (filter : V26.FilterTable) : bool :=
  (Nat.leb (length (V26.dimensions filter)) (length titles)
   && utf8_ValidString (V26.filterID filter)
   && forallb row_fits (V26.dimensions filter))%bool.

Definition fits (data : V26.QualityMetricLensData) : bool :=
  (forallb utf8_ValidString (V26.dimensionTitles data)
   && forallb (filter_fits (V26.dimensionTitles data)) (V26.filters data))%bool.

(** Number of rows of a v2.6 result, over all its filters. *)
Definition rows_of (data : V26.QualityMetricLensData) : nat :=
  list_sum (map (fun f => length (V26.dimensions f)) (V26.filters data)).

(** The regions of a v2.6 payload, as the parser visits them, and what it
    takes for a payload to be well formed: no warm-up entry; titles that are
    delivered without error; under each filter of [tables] no more rows than
    titles, each row delivered without error and exposing the full metric
    set (as many elements as [metricDescriptions], each reading as a number);
    filter ids and titles in UTF-8. *)
Section Payload.

Context {bytes : Type} {parser : JsonParser bytes}.

Definition warmup_calls (body : bytes) : list (bytes * option error) :=
  ArrayEach body ["quality_metriclens"; "meta"; "filters_warmup"].

Definition title_calls (body : bytes) : list (bytes * option error) :=
  ArrayEach body ["quality_metriclens"; "xvalues"].

Definition filter_entries (body : bytes) : list (string * bytes) :=
  ObjectEach body ["quality_metriclens"; "tables"].

Definition row_calls (body : bytes) (filterID : string) : list (bytes * option error) :=
  ArrayEach body ["quality_metriclens"; "tables"; filterID; "rows"].

Definition no_error (call : bytes * option error) : bool :=
  match snd call with
  | None => true
  | Some _ => false
  end.

Definition reads_number (call : bytes * option error) : bool :=
  (no_error call
   && match snd (GetFloat (fst call) []) with
      | None => true
      | Some _ => false
      end)%bool.

Definition full_row (call : bytes * option error) : bool :=
  (no_error call
   && Nat.eqb (length (ArrayEach (fst call) [])) (length V26.metricDescriptions)
   && forallb reads_number (ArrayEach (fst call) []))%bool.

Definition good_title (call : bytes * option error) : bool :=
  (no_error call && utf8_ValidString (string_of (fst call)))%bool.

Definition good_filter (body : bytes) (entry : string * bytes) : bool :=
  (utf8_ValidString (fst entry)
   && Nat.leb (length (row_calls body (fst entry))) (length (title_calls body))
   && forallb full_row (row_calls body (fst entry)))%bool.

Definition well_formed (body : bytes) : bool :=
  (negb (existsb no_error (warmup_calls body))
   && forallb good_title (title_calls body)
   && forallb (good_filter body) (filter_entries body))%bool.

(** The number N of grouping rows of a payload, over all its filters. *)
Definition grouping_rows (body : bytes) : nat :=
  list_sum (map (fun entry => length (row_calls body (fst entry)))
                (filter_entries body)).

(** The result the v2.6 parser builds from a well-formed payload. *)
Definition row_values (call : bytes * option error) : V26.Dimension :=
  V26.mkDimension (map (fun c => fst (GetFloat (fst c) [])) (ArrayEach (fst call) [])).

Definition filter_table (body : bytes) (entry : string * bytes) : V26.FilterTable :=
  V26.mkFilterTable (fst entry) (map row_values (row_calls body (fst entry))).

Definition result_of (body : bytes) : V26.QualityMetricLensData :=
  V26.mkQualityMetricLensData
    (map (filter_table body) (filter_entries body))
    (map (fun c => string_of (fst c)) (title_calls body)).

(** The same for a v3 payload: the filter id in UTF-8; every row of the
    data region delivered without error, with a UTF-8 string at
    [dimension.value] and, under [metrics], as many entries as
    [metricDescriptions] has keys, each of a recognized key whose rule reads
    its sub-field ([bitrate] needs none to be readable). *)
Definition v3_row_calls (body : bytes) : list (bytes * option error) :=
  ArrayEach body ["time_series"; "[0]"; "dimensional_data"].

Definition v3_field (name : string) : option string :=
  option_map snd (find (fun rule => String.eqb (fst rule) name) copied_fields).

Definition v3_reads (entry : string * bytes) : bool :=
  if String.eqb (fst entry) "bitrate" then true
  else match v3_field (fst entry) with
       | Some field =>
           match snd (GetFloat (snd entry) [field]) with
           | None => true
           | Some _ => false
           end
       | None => false
       end.

Definition v3_full_row (call : bytes * option error) : bool :=
  (no_error call
   && match GetString (fst call) ["dimension"; "value"] with
      | (dimension, None) => utf8_ValidString dimension
      | (_, Some _) => false
      end
   && Nat.eqb (length (ObjectEach (fst call) ["metrics"]))
              (length V3.metricDescriptions_entries)
   && forallb v3_reads (ObjectEach (fst call) ["metrics"]))%bool.

Definition v3_well_formed (body : bytes) : bool :=
  (utf8_ValidString (fst (GetString body ["_meta"; "filter_info"; "id"]))
   && forallb v3_full_row (v3_row_calls body))%bool.

(** The metric the v3 callback records for an entry, and the row and the
    result built from entries that are all read. *)
Definition v3_metric (entry : string * bytes) : V3.Metric :=
  V3.mkMetric (fst entry)
    (fst (V3.switch_metricName (fst entry) (snd entry) None)).

Definition v3_dimension (call : bytes * option error) : V3.Dimension :=
  V3.mkDimension (fst (GetString (fst call) ["dimension"; "value"]))
    (map v3_metric (ObjectEach (fst call) ["metrics"])).

Definition v3_result_of (body : bytes) : V3.MetricsData :=
  V3.mkMetricsData
    (fst (GetString body ["_meta"; "filter_info"; "id"]))
    match GetString body ["_meta"; "group_by_dimension"; "description"] with
    | (_, Some _) => "Unknown"
    | (dimensionName, None) => dimensionName
    end
    (map v3_dimension (v3_row_calls body)).

(** The result the v2.6 parser builds from any payload that is not warming
    up: the titles, rows and values that are delivered without error and
    read, in order; what is not is passed over. *)
Definition read_values (calls : list (bytes * option error)) : list float :=
  map (fun c => fst (GetFloat (fst c) [])) (filter reads_number calls).

Definition read_rows (calls : list (bytes * option error)) : list V26.Dimension :=
  map (fun c => V26.mkDimension (read_values (ArrayEach (fst c) [])))
      (filter no_error calls).

Definition read_filter (body : bytes) (entry : string * bytes) : V26.FilterTable :=
  V26.mkFilterTable (fst entry) (read_rows (row_calls body (fst entry))).

Definition read_result (body : bytes) : V26.QualityMetricLensData :=
  V26.mkQualityMetricLensData
    (map (read_filter body) (filter_entries body))
    (map (fun c => string_of (fst c)) (filter no_error (title_calls body))).

(** What lets the v3 parser get past a row: it is delivered without error,
    [dimension.value] is read, and no metric entry but the last leaves an
    error in [err]. *)
Definition leaves_no_error (entry : string * bytes) : bool :=
  match snd (V3.switch_metricName (fst entry) (snd entry) None) with
  | None => true
  | Some _ => false
  end.

Definition v3_row_survives (call : bytes * option error) : bool :=
  (no_error call
   && match snd (GetString (fst call) ["dimension"; "value"]) with
      | None => true
      | Some _ => false
      end
   && forallb leaves_no_error (removelast (ObjectEach (fst call) ["metrics"])))%bool.

(** The same said of the payload alone, by the rules of [copied_fields].
    A metric entry is read unless its key has a rule and [GetFloat] cannot
    read the sub-field the rule names; [bitrate] and the keys without a rule
    have no sub-field that must read. *)
Definition v3_entry_read (entry : string * bytes) : bool :=
  match v3_field (fst entry) with
  | Some field =>
      match snd (GetFloat (snd entry) [field]) with
      | None => true
      | Some _ => false
      end
  | None => true
  end.

Definition v3_row_read (call : bytes * option error) : bool :=
  (no_error call
   && match snd (GetString (fst call) ["dimension"; "value"]) with
      | None => true
      | Some _ => false
      end
   && forallb v3_entry_read (removelast (ObjectEach (fst call) ["metrics"])))%bool.

(** The value of a metric entry: for a key with a rule, what [GetFloat]
    returned for the sub-field, read or not; for [bitrate], 0 when [bps]
    reads and a thousandth of what [GetFloat] returned when it does not; 0
    for any other key. *)
Definition v3_value (entry : string * bytes) : float :=
  match v3_field (fst entry) with
  | Some field => fst (GetFloat (snd entry) [field])
  | None =>
      if String.eqb (fst entry) "bitrate" then
        match GetFloat (snd entry) ["bps"] with
        | (bps, Some _) => (bps / 1000)%float
        | (_, None) => 0%float
        end
      else 0%float
  end.

(** The result read from a v3 payload: one row per call of the data
    region, in it one metric per entry under [metrics], in payload order. *)
Definition v3_recorded (entry : string * bytes) : V3.Metric :=
  V3.mkMetric (fst entry) (v3_value entry).

Definition v3_read_dimension (call : bytes * option error) : V3.Dimension :=
  V3.mkDimension (fst (GetString (fst call) ["dimension"; "value"]))
    (map v3_recorded (ObjectEach (fst call) ["metrics"])).

Definition v3_read_result (body : bytes) : V3.MetricsData :=
  V3.mkMetricsData
    (fst (GetString body ["_meta"; "filter_info"; "id"]))
    match GetString body ["_meta"; "group_by_dimension"; "description"] with
    | (_, Some _) => "Unknown"
    | (dimensionName, None) => dimensionName
    end
    (map v3_read_dimension (v3_row_calls body)).

End Payload.

(** The samples of a v3 result: one per recorded metric, row after row. *)
Definition v3_sample (filter dimension : string) (metric : V3.Metric)
  : list ConstMetric :=
  match V3.metricDescriptions (V3.metricName metric) with
  | Some d => [gauge d (V3.value metric) filter dimension]
  | None => []
  end.

Definition v3_samples (data : V3.MetricsData) : list ConstMetric :=
  flat_map (fun dimension =>
              flat_map (v3_sample (V3.filterTitle data) (V3.dimensionValue dimension))
                       (V3.metrics dimension))
           (V3.dimensions data).

Definition v3_recognized (metric : V3.Metric) : bool :=
  match V3.metricDescriptions (V3.metricName metric) with
  | Some _ => true
  | None => false
  end.

(** What lets the emitters get through a result.  A sample is sent when its
    two label values are valid UTF-8; v2.6 also needs a title for every row
    and a descriptor for every value, v3 a descriptor for every metric
    name. *)
Definition labels_pass (filter dimension : string) : bool :=
  (utf8_ValidString filter && utf8_ValidString dimension)%bool.

Definition row_passes (filter title : string) (row : V26.Dimension) : bool :=
  (Nat.leb (length (V26.metrics row)) (length V26.metricDescriptions)
   && forallb (fun _ => labels_pass filter title) (V26.metrics row))%bool.

Definition filter_passes (titles : list string) (filter : V26.FilterTable) : bool :=
  (Nat.leb (length (V26.dimensions filter)) (length titles)
   && forallb (fun tr => row_passes (V26.filterID filter) (fst tr) (snd tr))
              (combine titles (V26.dimensions filter)))%bool.

Definition passes (data : V26.QualityMetricLensData) : bool :=
  forallb (filter_passes (V26.dimensionTitles data)) (V26.filters data).

Definition v3_metric_passes (filter dimension : string) (metric : V3.Metric) : bool :=
  (v3_recognized metric && labels_pass filter dimension)%bool.

Definition v3_row_passes (filter : string) (dimension : V3.Dimension) : bool :=
  forallb (v3_metric_passes filter (V3.dimensionValue dimension))
          (V3.metrics dimension).

Definition v3_passes (data : V3.MetricsData) : bool :=
  forallb (v3_row_passes (V3.filterTitle data)) (V3.dimensions data).

(** A sample as the registry expects it of a collector that described
    [described]: its descriptor was announced, it is a gauge, and it has one
    valid UTF-8 value per label name. *)
Definition announced (described : list Desc) (m : ConstMetric) : Prop :=
  In (desc m) described
  /\ valType m = GaugeValue
  /\ length (labelValues m) = length (labelNames (desc m))
  /\ forallb utf8_ValidString (labelValues m) = true.

(** A data sample of a collector whose metrics are [described]: a gauge on
    one of these descriptors, which is not the liveness descriptor [up], with
    a value for each of the two labels. *)
Definition data_sample (described : list Desc) (m : ConstMetric) : Prop :=
  In (desc m) described
  /\ desc m <> exporterUp
  /\ valType m = GaugeValue
  /\ length (labelValues m) = length variableLabels.

(** A call ended in a panic. *)
Definition panicked {A : Type} (run : emit A) : Prop :=
  exists sent msg, run = (sent, Panics msg).

(** The query parameters that name the metrics. *)
Definition metric_parameters (names : list string) : string :=
  String.concat "" (map (fun name => ("&metric=" ++ name)%string) names).

(** Sample documents. *)
Module Samples.
Import Doc.

(** The number token [literal]; [f] names the [float64] the token reads as
    and is no part of the document. *)
Definition number (literal : string) (f : float) : json := JNumber literal.

(** A v3 payload around the rows of the data region. *)
Definition v3_payload (rows : list json) : json :=
  JObject
    [ ("_meta",
       JObject [ ("group_by_dimension", JObject [("description", JString "Browser")]);
                 ("filter_info", JObject [("id", JString "myfilter")]) ]);
      ("time_series", JArray [JObject [("dimensional_data", JArray rows)]]) ].

Definition v3_row (dimension : string) (metrics : list (string * json)) : json :=
  JObject [ ("dimension", JObject [("value", JString dimension)]);
            ("metrics", JObject metrics) ].

(** A v2.6 payload: titles and, per filter, rows of values. *)
Definition v26_payload (titles : list string) (tables : list (string * list (list json)))
  : json :=
  JObject
    [ ("quality_metriclens",
       JObject
         [ ("xvalues", JArray (map JString titles));
           ("tables",
            JObject
              (map (fun t => (fst t, JObject [("rows", JArray (map JArray (snd t)))]))
                   tables)) ]) ].

(** A well-formed v2.6 payload: two titles, one filter, two full rows. *)
Definition v26_full_payload : json :=
  v26_payload ["chrome"; "firefox"]
    [("123", [repeat (number "1" 1) 15; repeat (number "2.5" 2.5) 15])].

(** A well-formed v3 payload: one row exposing the ten metrics. *)
Definition v3_full_payload : json :=
  v3_payload
    [ v3_row "chrome"
        [ ("attempts", JObject [("count", number "120" 120)]);
          ("video_start_failures", JObject [("percentage", number "1.5" 1.5)]);
          ("exit_before_video_starts", JObject [("percentage", number "2" 2)]);
          ("plays", JObject [("percentage", number "97.5" 97.5)]);
          ("video_start_time", JObject [("value", number "0.75" 0.75)]);
          ("rebuffering_ratio", JObject [("ratio", number "0.25" 0.25)]);
          ("bitrate", JObject [("bps", number "5000" 5000)]);
          ("video_playback_failures", JObject [("percentage", number "0.5" 0.5)]);
          ("ended_plays", JObject [("count", number "100" 100)]);
          ("connection_induced_rebuffering_ratio", JObject [("ratio", number "0.125" 0.125)]) ] ].

(** A v2.6 payload whose filter is warming up. *)
Definition v26_warming_payload : json :=
  JObject
    [ ("quality_metriclens",
       JObject
         [ ("meta", JObject [("filters_warmup", JArray [number "123" 123])]);
           ("xvalues", JArray [JString "chrome"]);
           ("tables",
            JObject [("123", JObject [("rows", JArray [JArray [number "1" 1]])])]) ]) ].

(** A v2.6 payload with one title and two rows. *)
Definition v26_short_titles_payload : json :=
  v26_payload ["chrome"] [("123", [[number "120" 120]; [number "80" 80]])].

(** v3 payloads: a key without descriptor; an unreadable metric before a
    sibling. *)
Definition v3_unknown_key_payload : json :=
  v3_payload
    [ v3_row "chrome"
        [ ("attempts", JObject [("count", number "120" 120)]);
          ("foo", JObject [("count", number "1" 1)]) ] ].

Definition v3_unreadable_first_payload : json :=
  v3_payload
    [ v3_row "chrome"
        [ ("attempts", JObject []);
          ("plays", JObject [("percentage", number "97.5" 97.5)]) ] ].

End Samples.

(* ------------------------------------------------------------------ *)
(** ** The reference reading of numbers *)

(** The number tokens of the sample documents read as the floats they are
    named with. *)
Lemma sample_numbers_read :
  Forall (fun named : string * float =>
            GetFloat (Samples.number (fst named) (snd named)) [] = (snd named, None))
    [ ("1", 1%float); ("2", 2%float); ("3", 3%float); ("80", 80%float);
      ("100", 100%float); ("120", 120%float); ("123", 123%float);
      ("5000", 5000%float); ("0.125", 0.125%float); ("0.25", 0.25%float);
      ("0.5", 0.5%float); ("0.75", 0.75%float); ("1.5", 1.5%float);
      ("2.5", 2.5%float); ("97.5", 97.5%float) ].
Proof. repeat (constructor; [vm_compute; reflexivity|]). constructor. Qed.

(** A row element that is a string with numeric content reaches the
    callback as the bytes between its quotes and reads as a number; a string
    under a key does not. *)
Lemma string_slice_reads_as_number :
  ArrayEach (Doc.JArray [Doc.JString "12"]) [] = [(Doc.JText "12", None)]
  /\ GetFloat (Doc.JText "12") [] = (12%float, None)
  /\ GetFloat (Doc.JObject [("count", Doc.JString "12")]) ["count"]
     = (0%float, Some (Doc.not_a_number "12")).
Proof. repeat split; vm_compute; reflexivity. Qed.

(** A token that [strconv.ParseFloat] rejects, or whose value is out of the
    range of [float64], gives 0 and the library's error. *)
Lemma number_out_of_range_is_not_read :
  GetFloat (Doc.JNumber "1e400") [] = (0%float, Some Doc.MalformedValueError)
  /\ GetFloat (Doc.JNumber "-") [] = (0%float, Some Doc.MalformedValueError)
  /\ GetFloat (Doc.JNumber "1.7976931348623157e308") []
     = (0x1.fffffffffffffp+1023%float, None)
  /\ GetFloat (Doc.JNumber "1.7976931348623159e308") []
     = (0%float, Some Doc.MalformedValueError).
Proof. repeat split; vm_compute; reflexivity. Qed.

(* ------------------------------------------------------------------ *)
(** ** Loops and channel sends *)

Lemma foldM_app {A S : Type} (body : S -> A -> outcome S) (xs ys : list A) (s : S) :
  foldM body s (xs ++ ys) = (s' <- foldM body s xs ;; foldM body s' ys).
Proof.
  revert s. induction xs as [|x xs IH]; intro s; simpl.
  - reflexivity.
  - destruct (body s x) as [s'| |]; simpl; auto.
Qed.

Lemma and_then_returns {A : Type} (sent more : list A) (o : outcome unit) :
  and_then (sent, Returns tt) (more, o) = (sent ++ more, o).
Proof. reflexivity. Qed.

Lemma send_liveness (v : float) :
  send (MustNewConstMetric (Some exporterUp) GaugeValue v []) =
  ([liveness v], Returns tt).
Proof. reflexivity. Qed.

(* ------------------------------------------------------------------ *)
(** ** Failed upstream responses *)

Section FailedResponses.

Context {bytes : Type} {parser : JsonParser bytes}.

Lemma V3_parse_non_200 (StatusCode : Z) (body : bytes) :
  StatusCode <> 200%Z ->
  V3.getQualityMetriclens (Response StatusCode body) =
  Returns (inr (upstream_error (GetString body ["name"]))).
Proof.
  intro H. apply Z.eqb_neq in H. unfold V3.getQualityMetriclens.
  rewrite H. simpl. destruct (GetString body ["name"]) as [reason [e|]]; reflexivity.
Qed.

Lemma V26_parse_non_200 (StatusCode : Z) (body : bytes) :
  StatusCode <> 200%Z ->
  V26.getQualityMetriclens (Response StatusCode body) =
  Returns (inr (upstream_error (GetString body ["reason"]))).
Proof.
  intro H. apply Z.eqb_neq in H. unfold V26.getQualityMetriclens.
  rewrite H. simpl. destruct (GetString body ["reason"]) as [reason [e|]]; reflexivity.
Qed.

Lemma V3_parse_failed (resp : upstream bytes) :
  failed_before_parsing resp = true ->
  exists err, V3.getQualityMetriclens resp = Returns (inr err).
Proof.
  destruct resp as [e|e|e|code body]; simpl; intro H; eauto.
  rewrite H. destruct (GetString body ["name"]) as [reason [e|]]; eauto.
Qed.

Lemma V26_parse_failed (resp : upstream bytes) :
  failed_before_parsing resp = true ->
  exists err, V26.getQualityMetriclens resp = Returns (inr err).
Proof.
  destruct resp as [e|e|e|code body]; simpl; intro H; eauto.
  rewrite H. destruct (GetString body ["reason"]) as [reason [e|]]; eauto.
Qed.

Lemma V3_Collect_error (resp : upstream bytes) (err : error) :
  V3.getQualityMetriclens resp = Returns (inr err) ->
  V3.Collect resp = ([liveness 0], Returns tt).
Proof. intro H. unfold V3.Collect. rewrite H. reflexivity. Qed.

Lemma V26_Collect_error (resp : upstream bytes) (err : error) :
  V26.getQualityMetriclens resp = Returns (inr err) ->
  V26.Collect resp = ([liveness 0], Returns tt).
Proof. intro H. unfold V26.Collect. rewrite H. reflexivity. Qed.

(** The v2.6 parser returns on every response. *)
Lemma V26_parse_returns (resp : upstream bytes) :
  exists r, V26.getQualityMetriclens resp = Returns r.
Proof.
  destruct resp as [e|e|e|code body]; simpl; eauto.
  destruct (negb (code =? 200)%Z).
  - destruct (GetString body ["reason"]) as [reason [e|]]; eauto.
  - destruct (fold_left V26.warmupCallback _ false); eauto.
Qed.

(** A row the v3 parser cannot take a dimension value from ends the
    process, whatever rows were read before it. *)
Lemma V3_row_without_value_exits (body row : bytes)
    (before rest : list (bytes * option error)) (dims : list V3.Dimension)
    (s : string) (e : error) :
  ArrayEach body ["time_series"; "[0]"; "dimensional_data"]
    = before ++ (row, None) :: rest ->
  foldM V3.dimensionCallback [] before = Returns dims ->
  GetString row ["dimension"; "value"] = (s, Some e) ->
  V3.getQualityMetriclens (Response 200 body) =
  Exits "Could not get time_series[0].dimensional_data.dimension.value".
Proof.
  intros Hrows Hbefore Hrow. unfold V3.getQualityMetriclens. simpl.
  destruct (GetString body ["_meta"; "group_by_dimension"; "description"]) as [dn e1].
  destruct (GetString body ["_meta"; "filter_info"; "id"]) as [fid e2].
  rewrite Hrows, foldM_app, Hbefore. simpl. rewrite Hrow. reflexivity.
Qed.

End FailedResponses.

(* ------------------------------------------------------------------ *)
(** ** C1: whole-scrape errors and the life of the process *)

(** C1, as stated, fails on the v3 variant: a 200 payload whose data region
    has a row without [dimension.value] makes the parser call
    [log.Fatalln], which ends the listening process; [Collect] sends
    nothing and does not return. *)
Lemma C1_v3_row_without_dimension_value_ends_process :
  V3.Collect
    (Response 200 (Samples.v3_payload [Doc.JObject [("metrics", Doc.JObject [])]]))
  = ([], Exits "Could not get time_series[0].dimensional_data.dimension.value")
  /\ ~ (exists sent,
          V3.Collect
            (Response 200
               (Samples.v3_payload [Doc.JObject [("metrics", Doc.JObject [])]]))
          = (sent, Returns tt)).
Proof.
  split.
  - reflexivity.
  - intros [sent H]. vm_compute in H. discriminate H.
Qed.

(** C1, amended.  In both variants a transport failure or a non-200 status
    ends that one scrape only: [Collect] sends the liveness sample 0 and
    nothing else, and returns.  The v2.6 Response Parser returns on every
    response, whatever the payload.  The v3 Response Parser, by its explicit
    [log.Fatalln], ends the process at a data-region row that has no string
    at [dimension.value]. *)
Theorem C1_whole_scrape_errors :
  forall (bytes : Type) (parser : JsonParser bytes),
    (forall resp : upstream bytes,
        failed_before_parsing resp = true ->
        V3.Collect resp = ([liveness 0], Returns tt)
        /\ V26.Collect resp = ([liveness 0], Returns tt))
    /\ (forall resp : upstream bytes,
          exists r, V26.getQualityMetriclens resp = Returns r)
    /\ (forall (body row : bytes) (before rest : list (bytes * option error))
               (dims : list V3.Dimension) (s : string) (e : error),
          ArrayEach body ["time_series"; "[0]"; "dimensional_data"]
            = before ++ (row, None) :: rest ->
          foldM V3.dimensionCallback [] before = Returns dims ->
          GetString row ["dimension"; "value"] = (s, Some e) ->
          V3.Collect (Response 200 body)
          = ([], Exits "Could not get time_series[0].dimensional_data.dimension.value")).
Proof.
  intros bytes parser. split; [|split].
  - intros resp H. split.
    + destruct (V3_parse_failed resp H) as [err E].
      exact (V3_Collect_error resp E).
    + destruct (V26_parse_failed resp H) as [err E].
      exact (V26_Collect_error resp E).
  - apply V26_parse_returns.
  - intros body row before rest dims s e Hrows Hbefore Hrow.
    unfold V3.Collect.
    rewrite (V3_row_without_value_exits body row before rest Hrows Hbefore Hrow).
    reflexivity.
Qed.

(** C1 on documents: a 500 response and a dial error end one scrape, the
    v2.6 parser returns on an HTML page, and the v3 parser ends the process
    at the second row, whose [dimension.value] is null. *)
Lemma C1_whole_scrape_errors_witness :
  (V3.Collect (Response 500 (Doc.JObject [("name", Doc.JString "rate_limited")]))
   = ([liveness 0], Returns tt)
   /\ V26.Collect (DoError (bytes:=Doc.json) (errors_New "dial tcp: i/o timeout"))
      = ([liveness 0], Returns tt))
  /\ (exists r,
        V26.getQualityMetriclens (Response 200 (Doc.JText "<html>Bad Gateway</html>"))
        = Returns r)
  /\ V3.Collect
       (Response 200
          (Samples.v3_payload
             [ Samples.v3_row "chrome" [];
               Doc.JObject [("dimension", Doc.JObject [("value", Doc.JNull)])] ]))
     = ([], Exits "Could not get time_series[0].dimensional_data.dimension.value").
Proof.
  destruct (C1_whole_scrape_errors Doc.doc_parser) as (Hfail & Hret & Hexit).
  split; [split|split].
  - apply (Hfail (Response 500 (Doc.JObject [("name", Doc.JString "rate_limited")]))).
    reflexivity.
  - apply (Hfail (DoError (errors_New "dial tcp: i/o timeout"))). reflexivity.
  - apply Hret.
  - apply (Hexit _ (Doc.JObject [("dimension", Doc.JObject [("value", Doc.JNull)])])
                 [(Samples.v3_row "chrome" [], None)] []
                 [V3.mkDimension "chrome" []] "" (errors_New "Value is not a string: null"));
      reflexivity.
Defined.

(* ------------------------------------------------------------------ *)
(** ** C6: responses with a status other than 200 *)

(** C6, as stated, fails where it says the error carries the raw body when
    no reason can be extracted: on a 500 response whose body has no [name]
    field the v3 parser returns the JSON library's own error, whose message
    has nothing of the body. *)
Lemma C6_error_without_reason_is_not_the_body :
  V3.getQualityMetriclens
    (Response 500 (Doc.JObject [("message", Doc.JString "internal error")]))
  = Returns (inr Doc.KeyPathNotFoundError)
  /\ Error Doc.KeyPathNotFoundError = "Key path not found"
  /\ string_of (Doc.JObject [("message", Doc.JString "internal error")])
     = String.concat Doc.quote ["{"; "message"; ":"; "internal error"; "}"]
  /\ contains (Error Doc.KeyPathNotFoundError)
       (string_of (Doc.JObject [("message", Doc.JString "internal error")]))
     = false.
Proof. repeat split; reflexivity. Qed.

(** C6, amended.  For every response with a status other than 200 the
    parser returns an error: "Invalid response from API. Reason: " followed by
    the reason when [GetString] finds the reason field ([name] in v3,
    [reason] in v2.6), and the error [GetString] itself returned otherwise.
    [Collect] then sends exactly the liveness sample 0 and no data sample. *)
Theorem C6_non_200_response :
  forall (bytes : Type) (parser : JsonParser bytes) (StatusCode : Z) (body : bytes),
    StatusCode <> 200%Z ->
    (V3.getQualityMetriclens (Response StatusCode body)
     = Returns (inr (upstream_error (GetString body ["name"])))
     /\ V3.Collect (Response StatusCode body) = ([liveness 0], Returns tt))
    /\ (V26.getQualityMetriclens (Response StatusCode body)
        = Returns (inr (upstream_error (GetString body ["reason"])))
        /\ V26.Collect (Response StatusCode body) = ([liveness 0], Returns tt)).
Proof.
  intros bytes parser code body H. split; split.
  - apply V3_parse_non_200, H.
  - exact (V3_Collect_error _ (V3_parse_non_200 body H)).
  - apply V26_parse_non_200, H.
  - exact (V26_Collect_error _ (V26_parse_non_200 body H)).
Qed.

(** C6 on the response 500 with body [{name: rate_limited}]: the v3 error
    carries the reason; v2.6, which looks for [reason], returns the
    library's error. *)
Lemma C6_non_200_response_witness :
  (500 <> 200)%Z
  /\ (V3.getQualityMetriclens
        (Response 500 (Doc.JObject [("name", Doc.JString "rate_limited")]))
      = Returns (inr (errors_New "Invalid response from API. Reason: rate_limited"))
      /\ V3.Collect (Response 500 (Doc.JObject [("name", Doc.JString "rate_limited")]))
         = ([liveness 0], Returns tt))
  /\ (V26.getQualityMetriclens
        (Response 500 (Doc.JObject [("name", Doc.JString "rate_limited")]))
      = Returns (inr Doc.KeyPathNotFoundError)
      /\ V26.Collect (Response 500 (Doc.JObject [("name", Doc.JString "rate_limited")]))
         = ([liveness 0], Returns tt)).
Proof.
  split; [lia|].
  apply (C6_non_200_response Doc.doc_parser (StatusCode:=500)
           (Doc.JObject [("name", Doc.JString "rate_limited")])).
  lia.
Defined.

(* ------------------------------------------------------------------ *)
(** ** C7: titles of the v3 result *)

Section Titles.

Context {bytes : Type} {parser : JsonParser bytes}.

(** In a v3 result the dimension title is defaulted, the filter title is
    not: it is the string [GetString] returned, error or not. *)
Lemma V3_titles (body : bytes) (data : V3.MetricsData) :
  V3.getQualityMetriclens (Response 200 body) = Returns (inl data) ->
  V3.dimensionTitle data
  = match GetString body ["_meta"; "group_by_dimension"; "description"] with
    | (_, Some _) => "Unknown"
    | (dimensionName, None) => dimensionName
    end
  /\ V3.filterTitle data = fst (GetString body ["_meta"; "filter_info"; "id"]).
Proof.
  unfold V3.getQualityMetriclens. simpl.
  destruct (GetString body ["_meta"; "group_by_dimension"; "description"]) as [dn e1].
  destruct (GetString body ["_meta"; "filter_info"; "id"]) as [fid e2].
  destruct (foldM V3.dimensionCallback [] _) as [dims| |]; simpl; try discriminate.
  intro H. injection H as <-. simpl. destruct e1; auto.
Qed.

End Titles.

(** C7, the code at the failing input.  The 200 payload [{}] has neither
    title.  The parse succeeds and the dimension title is "Unknown", but the
    filter title is the empty string: the branch for a missing filter id
    assigns "Unknown" to [dimensionName] again, after its last use, and
    [filterTitle] gets [filterId] as [GetString] left it. *)
Theorem C7_missing_filter_title_is_not_defaulted :
  V3.getQualityMetriclens (Response 200 (Doc.JObject []))
  = Returns (inl (V3.mkMetricsData "" "Unknown" []))
  /\ V3.Collect (Response 200 (Doc.JObject [])) = ([liveness 1], Returns tt).
Proof. split; reflexivity. Qed.

(* ------------------------------------------------------------------ *)
(** ** C2: metric keys that have no descriptor (v3) *)

(** C2, the code at the failing input.  One row with the recognized key
    [attempts] and the unrecognized key [foo]: the parser records both (the
    default case of the [switch] assigns nothing, and the metric is appended
    all the same, with value 0), and the emitter, after the liveness sample
    and the sample of [attempts], looks [foo] up in [metricDescriptions],
    gets the nil descriptor and panics in [MustNewConstMetric]. *)
Theorem C2_unrecognized_key_is_recorded_and_panics :
  V3.getQualityMetriclens
    (Response 200
       (Samples.v3_payload
          [ Samples.v3_row "chrome"
              [ ("attempts", Doc.JObject [("count", Samples.number "120" 120)]);
                ("foo", Doc.JObject [("count", Samples.number "1" 1)]) ] ]))
  = Returns
      (inl (V3.mkMetricsData "myfilter" "Browser"
              [ V3.mkDimension "chrome"
                  [ V3.mkMetric "attempts" 120; V3.mkMetric "foo" 0 ] ]))
  /\ V3.metricDescriptions "foo" = None
  /\ V3.Collect
       (Response 200
          (Samples.v3_payload
             [ Samples.v3_row "chrome"
                 [ ("attempts", Doc.JObject [("count", Samples.number "120" 120)]);
                   ("foo", Doc.JObject [("count", Samples.number "1" 1)]) ] ]))
     = ( [ liveness 1;
           gauge (NewDesc "conviva_experience_insights_attempts"
                    "Attempts counts all attempts to play a video which are initiated when a viewer clicks play or a video auto-plays."
                    variableLabels)
                 120 "myfilter" "chrome" ],
         Panics "runtime error: invalid memory address or nil pointer dereference" ).
Proof. repeat split; reflexivity. Qed.

(* ------------------------------------------------------------------ *)
(** ** The metrics callbacks *)

Section MetricCallbacks.

Context {bytes : Type} {parser : JsonParser bytes}.

(** For the keys of [copied_fields] the [switch] is the call of
    [GetFloat] on the named sub-field. *)
Lemma V3_switch_copied (name field : string) (value : bytes) (err : option error) :
  In (name, field) copied_fields ->
  V3.switch_metricName name value err = GetFloat value [field].
Proof.
  unfold copied_fields. simpl.
  intros H.
  repeat (destruct H as [H|H]; [injection H as <- <-; reflexivity|]).
  contradiction.
Qed.

Lemma V3_callback_reads (name field : string) (value : bytes) (f : float)
    (ms : list V3.Metric) :
  In (name, field) copied_fields ->
  GetFloat value [field] = (f, None) ->
  V3.metricsCallback (None, ms) (name, value)
  = Returns (None, ms ++ [V3.mkMetric name f]).
Proof.
  intros Hin Hget. unfold V3.metricsCallback.
  rewrite (V3_switch_copied value None Hin), Hget. reflexivity.
Qed.

Lemma V3_callback_read_error (name field : string) (value : bytes) (f : float)
    (e : error) (ms : list V3.Metric) :
  In (name, field) copied_fields ->
  GetFloat value [field] = (f, Some e) ->
  V3.metricsCallback (None, ms) (name, value)
  = Returns (Some e, ms ++ [V3.mkMetric name f]).
Proof.
  intros Hin Hget. unfold V3.metricsCallback.
  rewrite (V3_switch_copied value None Hin), Hget. reflexivity.
Qed.

Lemma V3_callback_after_error (e : error) (ms : list V3.Metric)
    (entry : string * bytes) :
  V3.metricsCallback (Some e, ms) entry
  = Exits "Could not get time_series[0].dimensional_data.metrics".
Proof. destruct entry. reflexivity. Qed.

(** The v2.6 row callback appends to the row or leaves it as it is. *)
Lemma V26_metric_loop_acc (calls : list (bytes * option error)) (row : list float) :
  fold_left V26.metricCallback calls row
  = row ++ fold_left V26.metricCallback calls [].
Proof.
  revert row. induction calls as [|c calls IH]; intro row; simpl.
  - now rewrite app_nil_r.
  - rewrite IH. rewrite (IH (V26.metricCallback [] c)).
    rewrite app_assoc. f_equal.
    unfold V26.metricCallback. destruct c as [v [e|]].
    + now rewrite app_nil_r.
    + destruct (GetFloat v []) as [f [e|]]; [now rewrite app_nil_r | reflexivity].
Qed.

Lemma V26_metric_loop_app (before after : list (bytes * option error)) :
  fold_left V26.metricCallback (before ++ after) []
  = fold_left V26.metricCallback before []
    ++ fold_left V26.metricCallback after [].
Proof. rewrite fold_left_app. apply V26_metric_loop_acc. Qed.

End MetricCallbacks.

(* ------------------------------------------------------------------ *)
(** ** C5: the value recorded for a metric *)

(** C5, as stated, fails for the example it names: for the key [bitrate]
    with a numeric [bps] sub-field (5000 here) the recorded value is 0, not
    the float of the sub-field. *)
Lemma C5_bitrate_is_not_the_bps_field :
  GetFloat (Doc.JObject [("bps", Samples.number "5000" 5000)]) ["bps"]
  = (5000%float, None)
  /\ V3.getQualityMetriclens
       (Response 200
          (Samples.v3_payload
             [ Samples.v3_row "chrome"
                 [("bitrate", Doc.JObject [("bps", Samples.number "5000" 5000)])] ]))
     = Returns
         (inl (V3.mkMetricsData "myfilter" "Browser"
                 [V3.mkDimension "chrome" [V3.mkMetric "bitrate" 0]]))
  /\ 0%float <> 5000%float.
Proof.
  repeat split; try reflexivity.
  intro H.
  assert (E : PrimFloat.eqb 0 5000 = true) by (rewrite H; reflexivity).
  vm_compute in E. discriminate E.
Qed.

(** C5, amended.  In the v3 variant, for every metric key whose rule copies
    a sub-field ([copied_fields]: every recognized key but [bitrate]), when
    the sub-field is present with a numeric value the metric recorded by the
    callback has that float as its value.  In the v2.6 variant every
    element of a row that reads as a number is recorded with that float. *)
Theorem C5_recorded_value_is_the_extracted_float :
  forall (bytes : Type) (parser : JsonParser bytes),
    (forall (name field : string) (value : bytes) (f : float) (ms : list V3.Metric),
        In (name, field) copied_fields ->
        GetFloat value [field] = (f, None) ->
        V3.metricsCallback (None, ms) (name, value)
        = Returns (None, ms ++ [V3.mkMetric name f]))
    /\ (forall (metricVal : bytes) (f : float) (row : list float),
          GetFloat metricVal [] = (f, None) ->
          V26.metricCallback row (metricVal, None) = row ++ [f]).
Proof.
  intros bytes parser. split.
  - intros. eapply V3_callback_reads; eassumption.
  - intros metricVal f row H. unfold V26.metricCallback. rewrite H. reflexivity.
Qed.

(** C5 on documents: [rebuffering_ratio] with [ratio] 0.25 in v3, the
    element 97.5 in v2.6. *)
Lemma C5_recorded_value_is_the_extracted_float_witness :
  V3.metricsCallback (None, [V3.mkMetric "attempts" 120])
    ("rebuffering_ratio", Doc.JObject [("ratio", Samples.number "0.25" 0.25)])
  = Returns (None, [V3.mkMetric "attempts" 120; V3.mkMetric "rebuffering_ratio" 0.25])
  /\ V26.metricCallback [120%float] (Samples.number "97.5" 97.5, None)
     = [120%float; 97.5%float].
Proof.
  destruct (C5_recorded_value_is_the_extracted_float Doc.doc_parser) as [Hv3 Hv26].
  split.
  - apply (Hv3 "rebuffering_ratio" "ratio"
               (Doc.JObject [("ratio", Samples.number "0.25" 0.25)]) 0.25%float
               [V3.mkMetric "attempts" 120]).
    + simpl. tauto.
    + reflexivity.
  - apply (Hv26 (Samples.number "97.5" 97.5) 97.5%float [120%float]). reflexivity.
Defined.

(* ------------------------------------------------------------------ *)
(** ** Rows of the v3 data region *)

(** A callback loop that appends the image of every element. *)
Lemma foldM_collect {A B S : Type} (cb : S -> A -> outcome S) (inj : list B -> S)
    (g : A -> B) (p : A -> bool) :
  (forall acc x, p x = true -> cb (inj acc) x = Returns (inj (acc ++ [g x]))) ->
  forall xs acc, forallb p xs = true ->
    foldM cb (inj acc) xs = Returns (inj (acc ++ map g xs)).
Proof.
  intros Hcb. induction xs as [|x xs IH]; intros acc Hp; simpl in *.
  - now rewrite app_nil_r.
  - apply andb_prop in Hp. destruct Hp as [Hx Hxs].
    rewrite (Hcb acc x Hx). simpl. rewrite (IH _ Hxs), <- app_assoc. reflexivity.
Qed.

Section V3Rows.

Context {bytes : Type} {parser : JsonParser bytes}.

Lemma v3_field_rule (name field : string) :
  v3_field name = Some field -> In (name, field) copied_fields.
Proof.
  unfold v3_field.
  destruct (find (fun rule => String.eqb (fst rule) name) copied_fields)
    as [[n f]|] eqn:E; simpl; [|discriminate].
  intro H. injection H as ->.
  apply find_some in E. destruct E as [Hin Heq]. simpl in Heq.
  apply String.eqb_eq in Heq. now subst n.
Qed.

Lemma V3_callback_reads_entry (entry : string * bytes) (ms : list V3.Metric) :
  v3_reads entry = true ->
  V3.metricsCallback (None, ms) entry = Returns (None, ms ++ [v3_metric entry]).
Proof.
  destruct entry as [name value]. unfold v3_reads, v3_metric. simpl.
  destruct (String.eqb name "bitrate") eqn:Eb.
  - apply String.eqb_eq in Eb. subst name. intros _.
    unfold V3.metricsCallback, V3.switch_metricName. simpl.
    destruct (GetFloat value ["bps"]) as [bps [e|]]; reflexivity.
  - destruct (v3_field name) as [field|] eqn:Ef; [|discriminate].
    apply v3_field_rule in Ef.
    destruct (GetFloat value [field]) as [f [e|]] eqn:Eg; simpl; [discriminate|].
    intros _. rewrite (V3_switch_copied value None Ef), Eg. reflexivity.
Qed.

Lemma V3_metrics_loop (entries : list (string * bytes)) (ms : list V3.Metric) :
  forallb v3_reads entries = true ->
  foldM V3.metricsCallback (None, ms) entries
  = Returns (None, ms ++ map v3_metric entries).
Proof.
  apply (foldM_collect V3.metricsCallback (fun acc => (None, acc)) v3_metric v3_reads).
  intros acc x Hx. apply V3_callback_reads_entry, Hx.
Qed.

End V3Rows.

(* ------------------------------------------------------------------ *)
(** ** C4: a metric value that cannot be read *)


(* ------------------------------------------------------------------ *)
(** ** The v2.6 emitter on results that fit *)

Lemma flat_map_singleton {A B : Type} (g : A -> B) (xs : list A) :
  flat_map (fun x => [g x]) xs = map g xs.
Proof. induction xs as [|x xs IH]; simpl; congruence. Qed.

Lemma skipn_nth_error {T : Type} (table : list T) (k : nat) (t : T) :
  nth_error table k = Some t -> skipn k table = t :: skipn (S k) table.
Proof.
  revert k. induction table as [|a table IH]; intros [|k] H; simpl in *;
    try discriminate.
  - congruence.
  - now apply IH.
Qed.

(** A loop whose every body sends its share and returns. *)
Lemma for_each_all {A X : Type} (body : nat -> X -> emit A) (f : X -> list A)
    (p : X -> bool) :
  (forall i x, p x = true -> body i x = (f x, Returns tt)) ->
  forall xs i, forallb p xs = true ->
    for_each body i xs = (flat_map f xs, Returns tt).
Proof.
  intros Hbody. induction xs as [|x xs IH]; intros i Hp; simpl in *.
  - reflexivity.
  - apply andb_prop in Hp. destruct Hp as [Hx Hxs].
    rewrite (Hbody i x Hx), (IH (S i) Hxs). reflexivity.
Qed.

(** A loop that reads [table[k]] for the element of index [k]: while the
    table is long enough it walks table and slice side by side. *)
Lemma for_each_zip {A X T : Type} (table : list T) (body : nat -> X -> emit A)
    (f : T -> X -> list A) (p : X -> bool) :
  (forall k t x, nth_error table k = Some t -> p x = true ->
                 body k x = (f t x, Returns tt)) ->
  forall xs k, forallb p xs = true -> k + length xs <= length table ->
    for_each body k xs
    = (flat_map (fun tx => f (fst tx) (snd tx)) (combine (skipn k table) xs),
       Returns tt).
Proof.
  intros Hbody. induction xs as [|x xs IH]; intros k Hp Hlen; simpl in *.
  - rewrite combine_nil. reflexivity.
  - apply andb_prop in Hp. destruct Hp as [Hx Hxs].
    destruct (nth_error table k) as [t|] eqn:Ht.
    + rewrite (Hbody k t x Ht Hx), (IH (S k) Hxs) by lia.
      rewrite (skipn_nth_error _ _ Ht). reflexivity.
    + apply nth_error_None in Ht. lia.
Qed.

Lemma V26_descriptors_have_two_labels (d : Desc) :
  In d V26.metricDescriptions -> labelNames d = variableLabels.
Proof.
  unfold V26.metricDescriptions. simpl. intro H.
  repeat (destruct H as [H|H]; [subst d; reflexivity|]).
  contradiction.
Qed.

Lemma V26_emit_row (filter title : string) (row : V26.Dimension) :
  utf8_ValidString filter = true ->
  utf8_ValidString title = true ->
  row_fits row = true ->
  V26.updateMetrics_dimension filter title row
  = (aligned_row filter title row, Returns tt).
Proof.
  intros Hf Ht Hrow. unfold V26.updateMetrics_dimension, aligned_row.
  rewrite <- flat_map_singleton.
  rewrite (for_each_zip V26.metricDescriptions _
             (fun d v => [gauge d v filter title]) (fun _ => true)).
  - reflexivity.
  - intros k d v Hk _. unfold at_index. rewrite Hk. simpl.
    unfold MustNewConstMetric.
    rewrite (V26_descriptors_have_two_labels (nth_error_In _ _ Hk)).
    simpl. rewrite Hf, Ht. reflexivity.
  - clear. induction (V26.metrics row); simpl; auto.
  - apply Nat.leb_le in Hrow. simpl. exact Hrow.
Qed.

Lemma V26_emit_filter (titles : list string) (filter : V26.FilterTable) :
  forallb utf8_ValidString titles = true ->
  filter_fits titles filter = true ->
  V26.updateMetrics_filter titles filter
  = (aligned_filter titles filter, Returns tt).
Proof.
  intros Ht Hfit. unfold filter_fits in Hfit.
  apply andb_prop in Hfit. destruct Hfit as [Hfit Hrows].
  apply andb_prop in Hfit. destruct Hfit as [Hlen Hid].
  unfold V26.updateMetrics_filter, aligned_filter.
  rewrite (for_each_zip titles _
             (fun title row => aligned_row (V26.filterID filter) title row) row_fits).
  - reflexivity.
  - intros j title row Hj Hrow. unfold at_index. rewrite Hj. simpl.
    apply V26_emit_row; auto.
    rewrite forallb_forall in Ht. apply Ht. eapply nth_error_In; eauto.
  - exact Hrows.
  - apply Nat.leb_le in Hlen. simpl. exact Hlen.
Qed.

Lemma V26_emit_fits (data : V26.QualityMetricLensData) :
  fits data = true ->
  V26.updateMetrics data = (aligned data, Returns tt).
Proof.
  intro H. unfold fits in H. apply andb_prop in H. destruct H as [Ht Hf].
  unfold V26.updateMetrics, aligned.
  apply (for_each_all _ (aligned_filter (V26.dimensionTitles data))
           (filter_fits (V26.dimensionTitles data))).
  - intros i filter Hfit. apply V26_emit_filter; auto.
  - exact Hf.
Qed.

(* ------------------------------------------------------------------ *)
(** ** C3: titles and rows of different lengths (v2.6) *)

(** C3, as stated, fails when a filter has more rows than there are
    titles: with one title and two rows the emitter sends the samples of the
    first row and then panics on [data.dimensionTitles[1]] (index out of
    range); the excess row is not silently dropped. *)
Lemma C3_more_rows_than_titles_panics :
  V26.updateMetrics
    (V26.mkQualityMetricLensData
       [V26.mkFilterTable "123" [V26.mkDimension [120%float]; V26.mkDimension [80%float]]]
       ["chrome"])
  = ( aligned
        (V26.mkQualityMetricLensData
           [V26.mkFilterTable "123"
              [V26.mkDimension [120%float]; V26.mkDimension [80%float]]]
           ["chrome"]),
      Panics "runtime error: index out of range" )
  /\ V26.Collect
       (Response 200
          (Samples.v26_payload ["chrome"]
             [("123", [[Samples.number "120" 120]; [Samples.number "80" 80]])]))
     = ( [ liveness 1;
           gauge (NewDesc "conviva_experience_insights_attempts"
                    "Attempts counts all attempts to play a video which are initiated when a viewer clicks play or a video auto-plays."
                    variableLabels)
                 120 "123" "chrome" ],
         Panics "runtime error: index out of range" ).
Proof. split; reflexivity. Qed.

(** C3, amended.  For every result in which each filter has at most as many
    rows as there are titles (each row at most as many values as
    [metricDescriptions], titles and filter ids in UTF-8), the emitter pairs
    titles and rows by position and sends the samples of the first
    min(len(titles), len(rows)) = len(rows) positions, the excess titles
    being dropped without failure. *)
Theorem C3_rows_aligned_with_titles :
  forall data : V26.QualityMetricLensData,
    fits data = true ->
    V26.updateMetrics data = (aligned data, Returns tt)
    /\ Forall (fun filter =>
                 length (combine (V26.dimensionTitles data) (V26.dimensions filter))
                 = Nat.min (length (V26.dimensionTitles data))
                           (length (V26.dimensions filter)))
              (V26.filters data).
Proof.
  intros data H. split.
  - apply V26_emit_fits, H.
  - apply Forall_forall. intros filter _. apply length_combine.
Qed.

(** C3 on a result with three titles and two rows: the third title is
    dropped. *)
Lemma C3_rows_aligned_with_titles_witness :
  V26.updateMetrics
    (V26.mkQualityMetricLensData
       [V26.mkFilterTable "123"
          [V26.mkDimension [120%float; 1.5%float]; V26.mkDimension [80%float]]]
       ["chrome"; "firefox"; "safari"])
  = ( [ gauge (NewDesc "conviva_experience_insights_attempts"
                 "Attempts counts all attempts to play a video which are initiated when a viewer clicks play or a video auto-plays."
                 variableLabels)
              120 "123" "chrome";
        gauge (NewDesc "conviva_experience_insights_video_start_failures"
                 "Video Start Failures (VSF) measures how often Attempts terminated during video startup before the first video frame was played, and a fatal error was reported."
                 variableLabels)
              1.5 "123" "chrome";
        gauge (NewDesc "conviva_experience_insights_attempts"
                 "Attempts counts all attempts to play a video which are initiated when a viewer clicks play or a video auto-plays."
                 variableLabels)
              80 "123" "firefox" ],
      Returns tt ).
Proof.
  apply (C3_rows_aligned_with_titles
           (V26.mkQualityMetricLensData
              [V26.mkFilterTable "123"
                 [V26.mkDimension [120%float; 1.5%float]; V26.mkDimension [80%float]]]
              ["chrome"; "firefox"; "safari"])).
  reflexivity.
Defined.

(* ------------------------------------------------------------------ *)
(** ** The v2.6 parser on well-formed payloads *)

Lemma forallb_weaken {A : Type} (p q : A -> bool) (xs : list A) :
  (forall x, p x = true -> q x = true) ->
  forallb p xs = true -> forallb q xs = true.
Proof.
  intros Hpq Hp. rewrite forallb_forall in *. auto.
Qed.

Lemma forallb_map {A B : Type} (p : B -> bool) (g : A -> B) (xs : list A) :
  forallb p (map g xs) = forallb (fun x => p (g x)) xs.
Proof. induction xs as [|x xs IH]; simpl; congruence. Qed.

(** An appending callback that takes every element collects their images. *)
Lemma fold_left_collect {A B : Type} (cb : list B -> A -> list B) (g : A -> B)
    (p : A -> bool) :
  (forall acc x, p x = true -> cb acc x = acc ++ [g x]) ->
  forall xs acc, forallb p xs = true -> fold_left cb xs acc = acc ++ map g xs.
Proof.
  intros Hcb. induction xs as [|x xs IH]; intros acc Hp; simpl in *.
  - now rewrite app_nil_r.
  - apply andb_prop in Hp. destruct Hp as [Hx Hxs].
    rewrite (Hcb acc x Hx), (IH _ Hxs), <- app_assoc. reflexivity.
Qed.

Lemma flat_map_constant_length {A B : Type} (f : A -> list B) (n : nat)
    (xs : list A) :
  (forall x, In x xs -> length (f x) = n) ->
  length (flat_map f xs) = length xs * n.
Proof.
  induction xs as [|x xs IH]; intro H; simpl.
  - reflexivity.
  - rewrite length_app, IH.
    + rewrite (H x); [reflexivity | simpl; auto].
    + intros y Hy. apply H. simpl. auto.
Qed.

Lemma list_sum_scaled {A : Type} (h : A -> nat) (g : A -> nat) (n : nat)
    (xs : list A) :
  (forall x, In x xs -> g x = h x * n) ->
  list_sum (map g xs) = list_sum (map h xs) * n.
Proof.
  induction xs as [|x xs IH]; intro H; simpl.
  - reflexivity.
  - rewrite IH.
    + rewrite (H x); [lia | simpl; auto].
    + intros y Hy. apply H. simpl. auto.
Qed.

Section WellFormed.

Context {bytes : Type} {parser : JsonParser bytes}.

Lemma V26_warmup_loop (calls : list (bytes * option error)) (b : bool) :
  fold_left V26.warmupCallback calls b = (b || existsb no_error calls)%bool.
Proof.
  revert b. induction calls as [|c calls IH]; intro b; simpl.
  - now rewrite orb_false_r.
  - rewrite IH. unfold V26.warmupCallback, no_error.
    destruct (snd c); simpl.
    + reflexivity.
    + now rewrite orb_true_r.
Qed.

Lemma V26_titles_loop (calls : list (bytes * option error)) :
  forallb no_error calls = true ->
  fold_left V26.titlesCallback calls [] = map (fun c => string_of (fst c)) calls.
Proof.
  intro H.
  rewrite (fold_left_collect V26.titlesCallback (fun c => string_of (fst c)) no_error);
    auto.
  intros acc c Hc. unfold V26.titlesCallback. unfold no_error in Hc.
  destruct (snd c); [discriminate | reflexivity].
Qed.

Lemma V26_metric_loop_full (calls : list (bytes * option error)) :
  forallb reads_number calls = true ->
  fold_left V26.metricCallback calls []
  = map (fun c => fst (GetFloat (fst c) [])) calls.
Proof.
  intro H.
  rewrite (fold_left_collect V26.metricCallback
             (fun c => fst (GetFloat (fst c) [])) reads_number); auto.
  intros acc [v err] Hc. unfold reads_number, no_error in Hc. simpl in *.
  destruct err; [discriminate|].
  destruct (GetFloat v []) as [f [e|]]; [discriminate | reflexivity].
Qed.

Lemma V26_dimension_loop (calls : list (bytes * option error)) :
  forallb full_row calls = true ->
  fold_left V26.dimensionCallback calls [] = map row_values calls.
Proof.
  intro H.
  rewrite (fold_left_collect V26.dimensionCallback row_values full_row); auto.
  intros acc [row err] Hc. unfold full_row in Hc.
  apply andb_prop in Hc. destruct Hc as [Hc Hread].
  apply andb_prop in Hc. destruct Hc as [Herr _].
  unfold no_error in Herr. simpl in *.
  destruct err; [discriminate|].
  unfold row_values. simpl. rewrite (V26_metric_loop_full _ Hread). reflexivity.
Qed.

Lemma V26_filter_loop (body : bytes) (entries : list (string * bytes)) :
  forallb (good_filter body) entries = true ->
  fold_left (V26.filterCallback body) entries [] = map (filter_table body) entries.
Proof.
  intro H.
  rewrite (fold_left_collect (V26.filterCallback body) (filter_table body)
             (good_filter body)); auto.
  intros acc [key value] Hc. unfold good_filter in Hc.
  apply andb_prop in Hc. destruct Hc as [_ Hrows]. simpl in *.
  unfold filter_table, row_calls in *. simpl.
  rewrite (V26_dimension_loop _ Hrows). reflexivity.
Qed.

Lemma V26_parse_well_formed (body : bytes) :
  well_formed body = true ->
  V26.getQualityMetriclens (Response 200 body) = Returns (inl (result_of body)).
Proof.
  intro H. unfold well_formed in H.
  apply andb_prop in H. destruct H as [H Hfilters].
  apply andb_prop in H. destruct H as [Hwarm Htitles].
  apply negb_true_iff in Hwarm.
  unfold V26.getQualityMetriclens. simpl.
  fold (warmup_calls body). rewrite V26_warmup_loop, Hwarm. simpl.
  fold (title_calls body). fold (filter_entries body).
  rewrite V26_titles_loop, (V26_filter_loop _ _ Hfilters).
  - reflexivity.
  - revert Htitles. apply forallb_weaken.
    intros c Hc. unfold good_title in Hc. apply andb_prop in Hc. tauto.
Qed.

Lemma full_row_values (call : bytes * option error) :
  full_row call = true ->
  length (V26.metrics (row_values call)) = length V26.metricDescriptions.
Proof.
  intro H. unfold full_row in H.
  apply andb_prop in H. destruct H as [H _].
  apply andb_prop in H. destruct H as [_ H].
  apply Nat.eqb_eq in H. unfold row_values. simpl. now rewrite length_map.
Qed.

Lemma result_fits (body : bytes) :
  well_formed body = true -> fits (result_of body) = true.
Proof.
  intro H. unfold well_formed in H.
  apply andb_prop in H. destruct H as [H Hfilters].
  apply andb_prop in H. destruct H as [_ Htitles].
  unfold fits, result_of. simpl. apply andb_true_intro. split.
  - rewrite forallb_map. revert Htitles. apply forallb_weaken.
    intros c Hc. unfold good_title in Hc. apply andb_prop in Hc. tauto.
  - rewrite forallb_map. revert Hfilters. apply forallb_weaken.
    intros entry Hc. unfold good_filter in Hc.
    apply andb_prop in Hc. destruct Hc as [Hc Hrows].
    apply andb_prop in Hc. destruct Hc as [Hid Hlen].
    unfold filter_fits, filter_table. simpl.
    rewrite !length_map, Hid, Hlen. simpl.
    rewrite forallb_map. revert Hrows. apply forallb_weaken.
    intros c Hfull. unfold row_fits. apply Nat.leb_le.
    rewrite (full_row_values _ Hfull). lia.
Qed.

Lemma aligned_full_rows (body : bytes) :
  well_formed body = true ->
  length (aligned (result_of body))
  = grouping_rows body * length V26.metricDescriptions.
Proof.
  intro H. unfold well_formed in H.
  apply andb_prop in H. destruct H as [_ Hfilters].
  rewrite forallb_forall in Hfilters.
  unfold aligned, result_of, grouping_rows. simpl.
  rewrite length_flat_map, map_map.
  apply list_sum_scaled. intros entry Hin.
  specialize (Hfilters entry Hin). unfold good_filter in Hfilters.
  apply andb_prop in Hfilters. destruct Hfilters as [Hc Hrows].
  apply andb_prop in Hc. destruct Hc as [_ Hlen]. apply Nat.leb_le in Hlen.
  rewrite forallb_forall in Hrows.
  unfold aligned_filter, filter_table. simpl.
  rewrite flat_map_constant_length with (n := length V26.metricDescriptions).
  - rewrite length_combine, !length_map. f_equal. lia.
  - intros [title row] Hpair. apply in_combine_r in Hpair.
    apply in_map_iff in Hpair. destruct Hpair as (call & <- & Hcall).
    unfold aligned_row. simpl fst. simpl snd.
    rewrite length_map, length_combine.
    rewrite (full_row_values _ (Hrows call Hcall)). lia.
Qed.

End WellFormed.

(* ------------------------------------------------------------------ *)
(** ** The v3 pipeline on well-formed payloads *)

Lemma V3_descriptors_have_two_labels (name : string) (d : Desc) :
  V3.metricDescriptions name = Some d -> labelNames d = variableLabels.
Proof.
  unfold V3.metricDescriptions.
  destruct (find (fun entry => String.eqb (fst entry) name)
                 V3.metricDescriptions_entries) as [[k d']|] eqn:E;
    simpl; [|discriminate].
  intro H. injection H as ->.
  apply find_some in E. destruct E as [Hin _].
  unfold V3.metricDescriptions_entries in Hin. simpl in Hin.
  repeat (destruct Hin as [Hin|Hin]; [injection Hin as <- <-; reflexivity|]).
  contradiction.
Qed.

Section V3WellFormed.

Context {bytes : Type} {parser : JsonParser bytes}.

Lemma v3_reads_recognized (entry : string * bytes) :
  v3_reads entry = true -> v3_recognized (v3_metric entry) = true.
Proof.
  destruct entry as [name value]. unfold v3_reads, v3_recognized, v3_metric. simpl.
  destruct (String.eqb name "bitrate") eqn:Eb.
  - apply String.eqb_eq in Eb. subst name. reflexivity.
  - destruct (v3_field name) as [field|] eqn:Ef; [|discriminate].
    intros _. apply v3_field_rule in Ef.
    unfold copied_fields in Ef. simpl in Ef.
    repeat (destruct Ef as [Ef|Ef]; [injection Ef as <- <-; reflexivity|]).
    contradiction.
Qed.

Lemma V3_dimension_loop (calls : list (bytes * option error)) :
  forallb v3_full_row calls = true ->
  foldM V3.dimensionCallback [] calls = Returns (map v3_dimension calls).
Proof.
  intro Hcalls.
  apply (foldM_collect V3.dimensionCallback (fun acc => acc) v3_dimension v3_full_row)
    with (acc := []); [|exact Hcalls].
  intros acc [row err] H. unfold v3_full_row in H.
  apply andb_prop in H. destruct H as [H Hreads].
  apply andb_prop in H. destruct H as [H _].
  apply andb_prop in H. destruct H as [Herr Hdim].
  unfold no_error in Herr. simpl in *.
  destruct err; [discriminate|].
  unfold v3_dimension. simpl.
  destruct (GetString row ["dimension"; "value"]) as [dimension [e|]];
    [discriminate|].
  rewrite (V3_metrics_loop _ [] Hreads). reflexivity.
Qed.

Lemma V3_parse_well_formed (body : bytes) :
  v3_well_formed body = true ->
  V3.getQualityMetriclens (Response 200 body) = Returns (inl (v3_result_of body)).
Proof.
  intro H. unfold v3_well_formed in H.
  apply andb_prop in H. destruct H as [_ Hrows].
  unfold V3.getQualityMetriclens, v3_result_of. simpl.
  destruct (GetString body ["_meta"; "group_by_dimension"; "description"]) as [dn e1].
  destruct (GetString body ["_meta"; "filter_info"; "id"]) as [fid e2].
  fold (v3_row_calls body). rewrite (V3_dimension_loop _ Hrows). reflexivity.
Qed.

Lemma V3_emit_row (filter : string) (dimension : V3.Dimension) :
  utf8_ValidString filter = true ->
  utf8_ValidString (V3.dimensionValue dimension) = true ->
  forallb v3_recognized (V3.metrics dimension) = true ->
  V3.updateMetrics_dimension filter dimension
  = (flat_map (v3_sample filter (V3.dimensionValue dimension)) (V3.metrics dimension),
     Returns tt).
Proof.
  intros Hf Hd Hms. unfold V3.updateMetrics_dimension.
  apply (for_each_all _ (v3_sample filter (V3.dimensionValue dimension)) v3_recognized);
    auto.
  intros k metric Hm. unfold v3_recognized in Hm. unfold v3_sample.
  destruct (V3.metricDescriptions (V3.metricName metric)) as [d|] eqn:E;
    [|discriminate].
  unfold MustNewConstMetric.
  rewrite (V3_descriptors_have_two_labels _ E). simpl. rewrite Hf, Hd. reflexivity.
Qed.

Lemma V3_emit_well_formed (body : bytes) :
  v3_well_formed body = true ->
  V3.updateMetrics (v3_result_of body) = (v3_samples (v3_result_of body), Returns tt).
Proof.
  intro H. unfold v3_well_formed in H.
  apply andb_prop in H. destruct H as [Hfilter Hrows].
  unfold V3.updateMetrics, v3_samples.
  apply (for_each_all _ _
           (fun dimension =>
              (utf8_ValidString (V3.dimensionValue dimension)
               && forallb v3_recognized (V3.metrics dimension))%bool)).
  - intros j dimension Hd. apply andb_prop in Hd. destruct Hd as [Hv Hms].
    apply V3_emit_row; auto.
  - unfold v3_result_of. simpl. rewrite forallb_map.
    revert Hrows. apply forallb_weaken. intros [row err] Hrow.
    unfold v3_full_row in Hrow.
    apply andb_prop in Hrow. destruct Hrow as [Hrow Hreads].
    apply andb_prop in Hrow. destruct Hrow as [Hrow _].
    apply andb_prop in Hrow. destruct Hrow as [_ Hdim].
    unfold v3_dimension. simpl in *.
    destruct (GetString row ["dimension"; "value"]) as [dimension [e|]];
      [discriminate|].
    simpl. rewrite Hdim. simpl. rewrite forallb_map.
    revert Hreads. apply forallb_weaken.
    intros entry. apply v3_reads_recognized.
Qed.

Lemma v3_samples_full_rows (body : bytes) :
  v3_well_formed body = true ->
  length (v3_samples (v3_result_of body))
  = length (v3_row_calls body) * length V3.metricDescriptions_entries.
Proof.
  intro H. unfold v3_well_formed in H.
  apply andb_prop in H. destruct H as [_ Hrows].
  rewrite forallb_forall in Hrows.
  unfold v3_samples, v3_result_of. simpl.
  rewrite flat_map_constant_length with (n := length V3.metricDescriptions_entries).
  - now rewrite length_map.
  - intros dimension Hin. apply in_map_iff in Hin.
    destruct Hin as (call & <- & Hcall).
    specialize (Hrows call Hcall). unfold v3_full_row in Hrows.
    apply andb_prop in Hrows. destruct Hrows as [Hrow Hreads].
    apply andb_prop in Hrow. destruct Hrow as [_ Hlen].
    apply Nat.eqb_eq in Hlen. rewrite forallb_forall in Hreads.
    unfold v3_dimension. simpl V3.metrics. simpl V3.dimensionValue.
    rewrite flat_map_constant_length with (n := 1).
    + rewrite length_map, Hlen. lia.
    + intros metric Hm. apply in_map_iff in Hm. destruct Hm as (entry & <- & Hentry).
      pose proof (v3_reads_recognized entry (Hreads entry Hentry)) as Hrec.
      unfold v3_recognized in Hrec. unfold v3_sample.
      destruct (V3.metricDescriptions (V3.metricName (v3_metric entry)));
        [reflexivity | discriminate].
Qed.

End V3WellFormed.

(* ------------------------------------------------------------------ *)
(** ** C10: v2.6 payloads without warm-up entries *)

(** C10.  In the v2.6 variant, for every 200 response whose
    [quality_metriclens.meta.filters_warmup] array is absent or empty (the
    warm-up callback is never called), the parser returns a result and a nil
    error, whatever the body.  For a body in which the library finds nothing
    to iterate at all (malformed, not JSON), that result has no filter and no
    title, and [Collect] sends the liveness sample 1 and no data sample. *)
Theorem C10_v26_parse_succeeds_without_warmup :
  forall (bytes : Type) (parser : JsonParser bytes) (body : bytes),
    warmup_calls body = [] ->
    (exists data,
        V26.getQualityMetriclens (Response 200 body) = Returns (inl data))
    /\ (title_calls body = [] ->
        filter_entries body = [] ->
        V26.getQualityMetriclens (Response 200 body)
        = Returns (inl (V26.mkQualityMetricLensData [] []))
        /\ V26.Collect (Response 200 body) = ([liveness 1], Returns tt)).
Proof.
  intros bytes parser body Hwarm.
  assert (E : V26.getQualityMetriclens (Response 200 body)
              = Returns (inl (V26.mkQualityMetricLensData
                                (fold_left (V26.filterCallback body) (filter_entries body) [])
                                (fold_left V26.titlesCallback (title_calls body) [])))).
  { unfold V26.getQualityMetriclens. simpl.
    fold (warmup_calls body). rewrite Hwarm. reflexivity. }
  split.
  - eexists. exact E.
  - intros Htitles Hfilters. rewrite Htitles, Hfilters in E.
    split; [exact E|].
    unfold V26.Collect. rewrite E. reflexivity.
Qed.

(** C10 on documents: a payload without warm-up entries, and an HTML page
    in place of JSON. *)
Lemma C10_v26_parse_succeeds_without_warmup_witness :
  (exists data,
      V26.getQualityMetriclens (Response 200 Samples.v26_full_payload)
      = Returns (inl data))
  /\ V26.getQualityMetriclens (Response 200 (Doc.JText "<html>502 Bad Gateway</html>"))
     = Returns (inl (V26.mkQualityMetricLensData [] []))
  /\ V26.Collect (Response 200 (Doc.JText "<html>502 Bad Gateway</html>"))
     = ([liveness 1], Returns tt).
Proof.
  split.
  - apply (C10_v26_parse_succeeds_without_warmup Doc.doc_parser
             Samples.v26_full_payload).
    reflexivity.
  - apply (C10_v26_parse_succeeds_without_warmup Doc.doc_parser
             (Doc.JText "<html>502 Bad Gateway</html>"));
      reflexivity.
Defined.

(* ------------------------------------------------------------------ *)
(** ** The v3 parser does not panic *)

Lemma foldM_no_panic {A S : Type} (body : S -> A -> outcome S) :
  (forall s x msg, body s x <> Panics msg) ->
  forall xs s msg, foldM body s xs <> Panics msg.
Proof.
  intros Hbody. induction xs as [|x xs IH]; intros s msg; simpl.
  - discriminate.
  - destruct (body s x) as [s'| m | m] eqn:E; simpl.
    + apply IH.
    + discriminate.
    + exfalso. exact (Hbody s x m E).
Qed.

Section NoPanic.

Context {bytes : Type} {parser : JsonParser bytes}.

Lemma V3_metricsCallback_no_panic (st : option error * list V3.Metric)
    (entry : string * bytes) (msg : string) :
  V3.metricsCallback st entry <> Panics msg.
Proof.
  destruct st as [[e|] ms], entry as [name value]; simpl; try discriminate.
  destruct (V3.switch_metricName name value None). discriminate.
Qed.

Lemma V3_dimensionCallback_no_panic (dims : list V3.Dimension)
    (call : bytes * option error) (msg : string) :
  V3.dimensionCallback dims call <> Panics msg.
Proof.
  destruct call as [row [e|]]; simpl; try discriminate.
  destruct (GetString row ["dimension"; "value"]) as [s [e|]]; try discriminate.
  destruct (foldM V3.metricsCallback (None, []) (ObjectEach row ["metrics"]))
    as [st| m | m] eqn:E; simpl; try discriminate.
  exfalso. exact (foldM_no_panic _ V3_metricsCallback_no_panic _ _ E).
Qed.

(** The v3 parser returns or ends the process; it does not panic. *)
Lemma V3_parse_no_panic (resp : upstream bytes) (msg : string) :
  V3.getQualityMetriclens resp <> Panics msg.
Proof.
  destruct resp as [e|e|e|code body]; simpl; try discriminate.
  destruct (negb (code =? 200)%Z).
  - destruct (GetString body ["name"]) as [reason [e|]]; discriminate.
  - destruct (GetString body ["_meta"; "group_by_dimension"; "description"]) as [dn e1].
    destruct (GetString body ["_meta"; "filter_info"; "id"]) as [fid e2].
    destruct (foldM V3.dimensionCallback [] _) as [dims| m | m] eqn:E; simpl;
      try discriminate.
    exfalso. exact (foldM_no_panic _ V3_dimensionCallback_no_panic _ _ E).
Qed.

End NoPanic.

(* ------------------------------------------------------------------ *)
(** ** Beyond the claims: what the v2.6 parser builds from any payload *)

(** A callback that appends the image of the elements it takes and passes
    over the others. *)
Lemma fold_left_filter_map {A B : Type} (cb : list B -> A -> list B) (g : A -> B)
    (p : A -> bool) :
  (forall acc x, cb acc x = if p x then acc ++ [g x] else acc) ->
  forall xs acc, fold_left cb xs acc = acc ++ map g (filter p xs).
Proof.
  intros Hcb. induction xs as [|x xs IH]; intro acc; simpl.
  - now rewrite app_nil_r.
  - rewrite IH, Hcb. destruct (p x); simpl.
    + now rewrite <- app_assoc.
    + reflexivity.
Qed.

Section ReadResult.

Context {bytes : Type} {parser : JsonParser bytes}.

Lemma V26_titles_read (calls : list (bytes * option error)) :
  fold_left V26.titlesCallback calls []
  = map (fun c => string_of (fst c)) (filter no_error calls).
Proof.
  rewrite (fold_left_filter_map V26.titlesCallback (fun c => string_of (fst c)) no_error).
  - reflexivity.
  - intros acc c. unfold V26.titlesCallback, no_error. destruct (snd c); reflexivity.
Qed.

Lemma V26_values_read (calls : list (bytes * option error)) :
  fold_left V26.metricCallback calls [] = read_values calls.
Proof.
  unfold read_values.
  rewrite (fold_left_filter_map V26.metricCallback
             (fun c => fst (GetFloat (fst c) [])) reads_number).
  - reflexivity.
  - intros acc [v err]. unfold V26.metricCallback, reads_number, no_error. simpl.
    destruct err; [reflexivity|].
    destruct (GetFloat v []) as [f [e|]]; reflexivity.
Qed.

Lemma V26_rows_read (calls : list (bytes * option error)) :
  fold_left V26.dimensionCallback calls [] = read_rows calls.
Proof.
  unfold read_rows.
  rewrite (fold_left_filter_map V26.dimensionCallback
             (fun c => V26.mkDimension (read_values (ArrayEach (fst c) [])))
             no_error).
  - reflexivity.
  - intros acc [row err]. unfold V26.dimensionCallback, no_error. simpl.
    destruct err; [reflexivity|]. now rewrite V26_values_read.
Qed.

Lemma V26_filters_read (body : bytes) (entries : list (string * bytes)) :
  fold_left (V26.filterCallback body) entries [] = map (read_filter body) entries.
Proof.
  rewrite (fold_left_collect (V26.filterCallback body) (read_filter body)
             (fun _ => true)).
  - reflexivity.
  - intros acc [key value] _. unfold V26.filterCallback, read_filter, row_calls.
    simpl. now rewrite V26_rows_read.
  - induction entries; simpl; auto.
Qed.

Lemma V26_parse_200 (body : bytes) :
  V26.getQualityMetriclens (Response 200 body)
  = if existsb no_error (warmup_calls body)
    then Returns (inr (errors_New "filter is warming up"))
    else Returns (inl (read_result body)).
Proof.
  unfold V26.getQualityMetriclens. simpl.
  fold (warmup_calls body). rewrite V26_warmup_loop. simpl.
  destruct (existsb no_error (warmup_calls body)); [reflexivity|].
  fold (title_calls body). fold (filter_entries body).
  rewrite V26_titles_read, V26_filters_read. reflexivity.
Qed.

End ReadResult.

(** X1.  For every 200 response the v2.6 parser returns the error "filter
    is warming up" when the warm-up array delivers an entry, and otherwise a
    result made of exactly what is delivered without error and reads: one
    [FilterTable] per key of [tables] (rows or not), under it one row per
    delivered row, in it the elements that read as numbers, and the titles
    delivered, all in payload order. *)
Theorem X1_v26_parser_result :
  forall (bytes : Type) (parser : JsonParser bytes) (body : bytes),
    V26.getQualityMetriclens (Response 200 body)
    = (if existsb no_error (warmup_calls body)
       then Returns (inr (errors_New "filter is warming up"))
       else Returns (inl (read_result body)))
    /\ map V26.filterID (V26.filters (read_result body))
       = map fst (filter_entries body)
    /\ length (V26.dimensionTitles (read_result body)) <= length (title_calls body)
    /\ Forall (fun entry =>
                 length (V26.dimensions (read_filter body entry))
                 <= length (row_calls body (fst entry)))
              (filter_entries body).
Proof.
  intros bytes parser body. split; [apply V26_parse_200 | split; [|split]].
  - unfold read_result. simpl. rewrite map_map. reflexivity.
  - unfold read_result. simpl. rewrite length_map. apply filter_length_le.
  - apply Forall_forall. intros entry _. unfold read_filter, read_rows. simpl.
    rewrite length_map. apply filter_length_le.
Qed.

(** X2.  A 200 response whose warm-up array delivers an entry is a failed
    scrape, whatever else the payload holds: the parser returns the error
    "filter is warming up" and [Collect] sends the liveness sample 0 alone. *)
Theorem X2_v26_warming_up :
  forall (bytes : Type) (parser : JsonParser bytes) (body : bytes),
    existsb no_error (warmup_calls body) = true ->
    V26.getQualityMetriclens (Response 200 body)
    = Returns (inr (errors_New "filter is warming up"))
    /\ V26.Collect (Response 200 body) = ([liveness 0], Returns tt).
Proof.
  intros bytes parser body H.
  assert (E : V26.getQualityMetriclens (Response 200 body)
              = Returns (inr (errors_New "filter is warming up"))).
  { rewrite V26_parse_200, H. reflexivity. }
  split; [exact E|]. exact (V26_Collect_error _ E).
Qed.

(* ------------------------------------------------------------------ *)
(** ** Beyond the claims: when the v3 parser returns, and what *)

(** A callback loop that appends while its elements pass and ends the
    process at the first that does not. *)
Lemma foldM_exits {A B S : Type} (cb : S -> A -> outcome S) (inj : list B -> S)
    (g : A -> B) (p : A -> bool) :
  (forall acc x, p x = true -> cb (inj acc) x = Returns (inj (acc ++ [g x]))) ->
  (forall acc x, p x = false -> exists msg, cb (inj acc) x = Exits msg) ->
  forall xs acc, forallb p xs = false ->
    exists msg, foldM cb (inj acc) xs = Exits msg.
Proof.
  intros Hok Hko. induction xs as [|x xs IH]; intros acc Hp; simpl in *.
  - discriminate.
  - destruct (p x) eqn:Hx; simpl in Hp.
    + rewrite (Hok acc x Hx). simpl. apply IH, Hp.
    + destruct (Hko acc x Hx) as [msg E]. rewrite E. simpl. eauto.
Qed.

Lemma foldM_cons {A S : Type} (body : S -> A -> outcome S) (s : S) (x : A)
    (xs : list A) :
  foldM body s (x :: xs) = (s' <- body s x ;; foldM body s' xs).
Proof. reflexivity. Qed.

Section V3Survival.

Context {bytes : Type} {parser : JsonParser bytes}.

(** With a nil [err] the metrics callback always records the entry. *)
Lemma V3_callback_records (entry : string * bytes) (ms : list V3.Metric) :
  V3.metricsCallback (None, ms) entry
  = Returns (snd (V3.switch_metricName (fst entry) (snd entry) None),
             ms ++ [v3_metric entry]).
Proof.
  destruct entry as [name value]. unfold V3.metricsCallback, v3_metric. simpl.
  destruct (V3.switch_metricName name value None). reflexivity.
Qed.

(** The loop over the entries of a row: it records them all when none but
    the last leaves an error, and ends the process otherwise. *)
Lemma V3_metrics_loop_outcome (entries : list (string * bytes)) :
  forall ms : list V3.Metric,
    (forallb leaves_no_error (removelast entries) = true ->
     exists err,
       foldM V3.metricsCallback (None, ms) entries
       = Returns (err, ms ++ map v3_metric entries))
    /\ (forallb leaves_no_error (removelast entries) = false ->
        foldM V3.metricsCallback (None, ms) entries
        = Exits "Could not get time_series[0].dimensional_data.metrics").
Proof.
  induction entries as [|x rest IH]; intro ms.
  - split; intro H; simpl in *.
    + exists None. now rewrite app_nil_r.
    + discriminate.
  - destruct rest as [|y rest'].
    + split; intro H; [|simpl in H; discriminate H].
      rewrite foldM_cons, V3_callback_records. cbn [bind foldM map]. eauto.
    + change (removelast (x :: y :: rest')) with (x :: removelast (y :: rest')).
      cbn [forallb]. rewrite foldM_cons, V3_callback_records. cbn [bind].
      unfold leaves_no_error at 1 3.
      destruct (snd (V3.switch_metricName (fst x) (snd x) None)) as [e|].
      * split; intro H; [discriminate|].
        rewrite foldM_cons, V3_callback_after_error. reflexivity.
      * cbn [andb]. destruct (IH (ms ++ [v3_metric x])) as [Hok Hko]. split; intro H.
        -- destruct (Hok H) as [err E]. exists err. rewrite E.
           rewrite <- app_assoc. reflexivity.
        -- apply Hko, H.
Qed.

Lemma V3_row_outcome (dims : list V3.Dimension) (call : bytes * option error) :
  (v3_row_survives call = true ->
   V3.dimensionCallback dims call = Returns (dims ++ [v3_dimension call]))
  /\ (v3_row_survives call = false ->
      exists msg, V3.dimensionCallback dims call = Exits msg).
Proof.
  destruct call as [row err]. unfold v3_row_survives, no_error, v3_dimension.
  unfold V3.dimensionCallback. simpl.
  destruct err as [e|]; simpl.
  { split; intro H; [discriminate | eauto]. }
  destruct (GetString row ["dimension"; "value"]) as [dimension [e|]]; simpl.
  { split; intro H; [discriminate | eauto]. }
  destruct (V3_metrics_loop_outcome (ObjectEach row ["metrics"]) []) as [Hok Hko].
  split; intro H.
  - destruct (Hok H) as [err E]. rewrite E. reflexivity.
  - rewrite (Hko H). simpl. eauto.
Qed.

Lemma V3_parse_200 (body : bytes) :
  (forallb v3_row_survives (v3_row_calls body) = true ->
   V3.getQualityMetriclens (Response 200 body) = Returns (inl (v3_result_of body)))
  /\ (forallb v3_row_survives (v3_row_calls body) = false ->
      exists msg, V3.getQualityMetriclens (Response 200 body) = Exits msg).
Proof.
  unfold V3.getQualityMetriclens, v3_result_of. simpl.
  destruct (GetString body ["_meta"; "group_by_dimension"; "description"]) as [dn e1].
  destruct (GetString body ["_meta"; "filter_info"; "id"]) as [fid e2].
  fold (v3_row_calls body). split; intro H.
  - rewrite (foldM_collect V3.dimensionCallback (fun acc => acc) v3_dimension
               v3_row_survives) with (acc := []); auto.
    intros acc call Hc. apply V3_row_outcome, Hc.
  - destruct (foldM_exits V3.dimensionCallback (fun acc => acc) v3_dimension
                v3_row_survives) with (xs := v3_row_calls body) (acc := @nil V3.Dimension)
      as [msg E]; auto.
    + intros acc call Hc. apply V3_row_outcome, Hc.
    + intros acc call Hc. apply V3_row_outcome, Hc.
    + rewrite E. simpl. eauto.
Qed.

End V3Survival.

(* ------------------------------------------------------------------ *)
(** ** Beyond the claims: when the emitters return *)

Lemma and_then_panicked {A : Type} (first next : emit A) :
  panicked first -> panicked (and_then first next).
Proof.
  intros (sent & msg & ->). exists sent, msg. reflexivity.
Qed.

Lemma and_then_panicked_next {A : Type} (sent : list A) (next : emit A) :
  panicked next -> panicked (and_then (sent, Returns tt) next).
Proof.
  intros (sent' & msg & ->). exists (sent ++ sent'), msg. reflexivity.
Qed.

(** A loop whose body panics on the elements that do not pass. *)
Lemma for_each_panics {A X : Type} (body : nat -> X -> emit A) (f : X -> list A)
    (ok : X -> bool) :
  (forall i x, ok x = true -> body i x = (f x, Returns tt)) ->
  (forall i x, ok x = false -> panicked (body i x)) ->
  forall xs i, forallb ok xs = false -> panicked (for_each body i xs).
Proof.
  intros Hok Hko. induction xs as [|x xs IH]; intros i H; simpl in *.
  - discriminate.
  - destruct (ok x) eqn:Hx; simpl in H.
    + rewrite (Hok i x Hx). apply and_then_panicked_next, IH, H.
    + apply and_then_panicked, Hko, Hx.
Qed.

(** A loop that reads [table[k]] for the element of index [k]: it returns
    when the table is long enough and every pair passes, and panics
    otherwise. *)
Lemma for_each_zip_outcome {A X T : Type} (table : list T)
    (body : nat -> X -> emit A) (f : T -> X -> list A) (ok : T -> X -> bool) :
  (forall k t x, nth_error table k = Some t -> ok t x = true ->
                 body k x = (f t x, Returns tt)) ->
  (forall k t x, nth_error table k = Some t -> ok t x = false ->
                 panicked (body k x)) ->
  (forall k x, nth_error table k = None -> panicked (body k x)) ->
  forall xs k, k <= length table ->
    ((Nat.leb (k + length xs) (length table)
      && forallb (fun tx => ok (fst tx) (snd tx)) (combine (skipn k table) xs))%bool
     = true ->
     for_each body k xs
     = (flat_map (fun tx => f (fst tx) (snd tx)) (combine (skipn k table) xs),
        Returns tt))
    /\ ((Nat.leb (k + length xs) (length table)
         && forallb (fun tx => ok (fst tx) (snd tx)) (combine (skipn k table) xs))%bool
        = false ->
        panicked (for_each body k xs)).
Proof.
  intros Hok Hko Hout. induction xs as [|x xs IH]; intros k Hk.
  - simpl. rewrite combine_nil, Nat.add_0_r. simpl.
    apply Nat.leb_le in Hk. rewrite Hk. split; intro H; [reflexivity | discriminate].
  - cbn [for_each length]. rewrite Nat.add_succ_r.
    destruct (nth_error table k) as [t|] eqn:Ht.
    + assert (Hlt : S k <= length table).
      { apply Nat.le_succ_l. apply nth_error_Some. congruence. }
      rewrite (skipn_nth_error _ _ Ht). cbn [combine forallb flat_map fst snd].
      destruct (IH (S k) Hlt) as [IHok IHko]. cbn [Nat.add] in IHok, IHko.
      destruct (ok t x) eqn:Hx; cbn [andb].
      * rewrite (Hok k t x Ht Hx). split; intro H.
        -- rewrite (IHok H). reflexivity.
        -- apply and_then_panicked_next, IHko, H.
      * rewrite andb_false_r. split; intro H; [discriminate|].
        apply and_then_panicked, (Hko k t x Ht Hx).
    + apply nth_error_None in Ht.
      assert (E : Nat.leb (S (k + length xs)) (length table) = false)
        by (apply Nat.leb_gt; lia).
      rewrite E. cbn [andb]. split; intro H; [discriminate|].
      apply and_then_panicked, Hout. apply nth_error_None, Ht.
Qed.

Lemma forallb_combine_const {T X : Type} (c : bool) (xs : list X) :
  forall table : list T, length xs <= length table ->
    forallb (fun _ => c) (combine table xs) = forallb (fun _ => c) xs.
Proof.
  induction xs as [|x xs IH]; intros table H.
  - now rewrite combine_nil.
  - destruct table as [|t table]; simpl in *; [lia|].
    rewrite IH by lia. reflexivity.
Qed.

Lemma in_combine_of_r {T X : Type} (x : X) (xs : list X) :
  forall table : list T, length xs <= length table -> In x xs ->
    exists t, In (t, x) (combine table xs).
Proof.
  induction xs as [|y xs IH]; intros table H Hin; [contradiction|].
  destruct table as [|t table]; simpl in *; [lia|].
  destruct Hin as [->|Hin].
  - exists t. auto.
  - destruct (IH table) as [t' Ht']; [lia | exact Hin |]. exists t'. auto.
Qed.

Lemma V26_row_outcome (filter title : string) (row : V26.Dimension) :
  (row_passes filter title row = true ->
   V26.updateMetrics_dimension filter title row
   = (aligned_row filter title row, Returns tt))
  /\ (row_passes filter title row = false ->
      panicked (V26.updateMetrics_dimension filter title row)).
Proof.
  unfold V26.updateMetrics_dimension, aligned_row, row_passes.
  rewrite <- flat_map_singleton.
  destruct (for_each_zip_outcome V26.metricDescriptions
              (fun (k : nat) (metricValue : float) =>
                 emit_after (at_index V26.metricDescriptions k)
                   (fun d => send (MustNewConstMetric (Some d) GaugeValue metricValue
                                     [filter; title])))
              (fun d v => [gauge d v filter title])
              (fun _ _ => labels_pass filter title))
    with (xs := V26.metrics row) (k := 0) as [Hok Hko].
  - intros k d v Hk Hl. unfold at_index. rewrite Hk. simpl.
    unfold MustNewConstMetric.
    rewrite (V26_descriptors_have_two_labels (nth_error_In _ _ Hk)).
    unfold labels_pass in Hl. simpl. rewrite andb_true_r, Hl. reflexivity.
  - intros k d v Hk Hl. unfold at_index. rewrite Hk. simpl.
    unfold MustNewConstMetric.
    rewrite (V26_descriptors_have_two_labels (nth_error_In _ _ Hk)).
    unfold labels_pass in Hl. simpl. rewrite andb_true_r, Hl.
    eexists _, _. reflexivity.
  - intros k v Hk. unfold at_index. rewrite Hk. eexists _, _. reflexivity.
  - lia.
  - cbn [Nat.add skipn] in Hok, Hko.
    destruct (Nat.leb (length (V26.metrics row)) (length V26.metricDescriptions))
      eqn:Hlen.
    + rewrite forallb_combine_const in Hok, Hko by (apply Nat.leb_le, Hlen).
      split; assumption.
    + split; intro H; [discriminate|]. apply Hko. reflexivity.
Qed.

Lemma V26_filter_outcome (titles : list string) (filter : V26.FilterTable) :
  (filter_passes titles filter = true ->
   V26.updateMetrics_filter titles filter
   = (aligned_filter titles filter, Returns tt))
  /\ (filter_passes titles filter = false ->
      panicked (V26.updateMetrics_filter titles filter)).
Proof.
  unfold V26.updateMetrics_filter, aligned_filter, filter_passes.
  apply (for_each_zip_outcome titles
           (fun (j : nat) (dimension : V26.Dimension) =>
              emit_after (at_index titles j)
                (fun dimensionTitle =>
                   V26.updateMetrics_dimension (V26.filterID filter) dimensionTitle
                     dimension))
           (fun title row => aligned_row (V26.filterID filter) title row)
           (fun title row => row_passes (V26.filterID filter) title row))
    with (k := 0).
  - intros j title row Hj Hrow. unfold at_index. rewrite Hj. simpl.
    apply V26_row_outcome, Hrow.
  - intros j title row Hj Hrow. unfold at_index. rewrite Hj. simpl.
    apply V26_row_outcome, Hrow.
  - intros j row Hj. unfold at_index. rewrite Hj. eexists _, _. reflexivity.
  - lia.
Qed.

Lemma V26_emit_outcome (data : V26.QualityMetricLensData) :
  (passes data = true -> V26.updateMetrics data = (aligned data, Returns tt))
  /\ (passes data = false -> panicked (V26.updateMetrics data)).
Proof.
  unfold passes, V26.updateMetrics, aligned. split; intro H.
  - apply (for_each_all _ (aligned_filter (V26.dimensionTitles data))
             (filter_passes (V26.dimensionTitles data))); auto.
    intros i filter Hf. apply V26_filter_outcome, Hf.
  - apply (for_each_panics _ (aligned_filter (V26.dimensionTitles data))
             (filter_passes (V26.dimensionTitles data))); auto.
    + intros i filter Hf. apply V26_filter_outcome, Hf.
    + intros i filter Hf. apply V26_filter_outcome, Hf.
Qed.

(** X4.  The v2.6 emitter returns exactly when every filter has a title for
    each of its rows and every row has at most 15 values and, if it has any,
    UTF-8 filter id and title; it then sent the samples aligned by position.
    Otherwise it panics: in particular whenever some filter has more rows
    than there are titles, or some row more values than there are
    descriptors. *)
Theorem X4_v26_emitter_returns_or_panics :
  forall data : V26.QualityMetricLensData,
    (passes data = true -> V26.updateMetrics data = (aligned data, Returns tt))
    /\ (passes data = false -> panicked (V26.updateMetrics data))
    /\ (forall filter,
          In filter (V26.filters data) ->
          length (V26.dimensionTitles data) < length (V26.dimensions filter) ->
          panicked (V26.updateMetrics data))
    /\ (forall filter row,
          In filter (V26.filters data) ->
          In row (V26.dimensions filter) ->
          length V26.metricDescriptions < length (V26.metrics row) ->
          panicked (V26.updateMetrics data)).
Proof.
  intro data. destruct (V26_emit_outcome data) as [Hok Hko].
  split; [exact Hok | split; [exact Hko | split]].
  - intros filter Hin Hlen. apply Hko.
    destruct (passes data) eqn:E; [|reflexivity].
    unfold passes in E. rewrite forallb_forall in E. specialize (E filter Hin).
    unfold filter_passes in E. apply andb_prop in E. destruct E as [E _].
    apply Nat.leb_le in E. lia.
  - intros filter row Hin Hrow Hlen. apply Hko.
    destruct (passes data) eqn:E; [|reflexivity].
    unfold passes in E. rewrite forallb_forall in E. specialize (E filter Hin).
    unfold filter_passes in E. apply andb_prop in E. destruct E as [E1 E2].
    apply Nat.leb_le in E1.
    destruct (in_combine_of_r row (V26.dimensions filter) (V26.dimensionTitles data) E1 Hrow)
      as [title Ht].
    rewrite forallb_forall in E2. specialize (E2 _ Ht). simpl in E2.
    unfold row_passes in E2. apply andb_prop in E2. destruct E2 as [E2 _].
    apply Nat.leb_le in E2. lia.
Qed.

Lemma V3_metric_outcome (filter dimension : string) (k : nat) (metric : V3.Metric) :
  (v3_metric_passes filter dimension metric = true ->
   send (MustNewConstMetric (V3.metricDescriptions (V3.metricName metric))
           GaugeValue (V3.value metric) [filter; dimension])
   = (v3_sample filter dimension metric, Returns tt))
  /\ (v3_metric_passes filter dimension metric = false ->
      panicked (send (MustNewConstMetric (V3.metricDescriptions (V3.metricName metric))
                        GaugeValue (V3.value metric) [filter; dimension]))).
Proof.
  unfold v3_metric_passes, v3_recognized, v3_sample, labels_pass.
  destruct (V3.metricDescriptions (V3.metricName metric)) as [d|] eqn:E.
  - unfold MustNewConstMetric.
    rewrite (V3_descriptors_have_two_labels _ E). simpl. rewrite andb_true_r.
    destruct (utf8_ValidString filter && utf8_ValidString dimension)%bool.
    + split; intro H; [reflexivity | discriminate].
    + split; intro H; [discriminate | eexists _, _; reflexivity].
  - simpl. split; intro H; [discriminate | eexists _, _; reflexivity].
Qed.

Lemma V3_emit_outcome (data : V3.MetricsData) :
  (v3_passes data = true -> V3.updateMetrics data = (v3_samples data, Returns tt))
  /\ (v3_passes data = false -> panicked (V3.updateMetrics data)).
Proof.
  assert (Hrow : forall dimension,
             (v3_row_passes (V3.filterTitle data) dimension = true ->
              V3.updateMetrics_dimension (V3.filterTitle data) dimension
              = (flat_map (v3_sample (V3.filterTitle data) (V3.dimensionValue dimension))
                          (V3.metrics dimension),
                 Returns tt))
             /\ (v3_row_passes (V3.filterTitle data) dimension = false ->
                 panicked (V3.updateMetrics_dimension (V3.filterTitle data) dimension))).
  { intro dimension. unfold v3_row_passes, V3.updateMetrics_dimension. split; intro H.
    - apply (for_each_all _
               (v3_sample (V3.filterTitle data) (V3.dimensionValue dimension))
               (v3_metric_passes (V3.filterTitle data) (V3.dimensionValue dimension)));
        auto.
      intros k metric Hm. apply (V3_metric_outcome _ _ k), Hm.
    - apply (for_each_panics _
               (v3_sample (V3.filterTitle data) (V3.dimensionValue dimension))
               (v3_metric_passes (V3.filterTitle data) (V3.dimensionValue dimension)));
        auto.
      + intros k metric Hm. apply (V3_metric_outcome _ _ k), Hm.
      + intros k metric Hm. apply (V3_metric_outcome _ _ k), Hm. }
  unfold v3_passes, V3.updateMetrics, v3_samples. split; intro H.
  - apply (for_each_all _ _ (v3_row_passes (V3.filterTitle data))); auto.
    intros j dimension Hd. apply Hrow, Hd.
  - apply (for_each_panics _
             (fun dimension =>
                flat_map (v3_sample (V3.filterTitle data) (V3.dimensionValue dimension))
                         (V3.metrics dimension))
             (v3_row_passes (V3.filterTitle data))); auto.
    + intros j dimension Hd. apply Hrow, Hd.
    + intros j dimension Hd. apply Hrow, Hd.
Qed.

(** X5.  The v3 emitter returns exactly when every recorded metric has a
    name that is a key of [metricDescriptions] and the filter title and its
    dimension value are valid UTF-8; it then sent one sample per metric, row
    after row.  Otherwise it panics: in particular whenever a recorded
    metric has a name without a descriptor. *)
Theorem X5_v3_emitter_returns_or_panics :
  forall data : V3.MetricsData,
    (v3_passes data = true -> V3.updateMetrics data = (v3_samples data, Returns tt))
    /\ (v3_passes data = false -> panicked (V3.updateMetrics data))
    /\ (forall dimension metric,
          In dimension (V3.dimensions data) ->
          In metric (V3.metrics dimension) ->
          V3.metricDescriptions (V3.metricName metric) = None ->
          panicked (V3.updateMetrics data)).
Proof.
  intro data. destruct (V3_emit_outcome data) as [Hok Hko].
  split; [exact Hok | split; [exact Hko|]].
  intros dimension metric Hd Hm Hnone. apply Hko.
  destruct (v3_passes data) eqn:E; [|reflexivity].
  unfold v3_passes in E. rewrite forallb_forall in E. specialize (E dimension Hd).
  unfold v3_row_passes in E. rewrite forallb_forall in E. specialize (E metric Hm).
  unfold v3_metric_passes, v3_recognized in E. rewrite Hnone in E. discriminate E.
Qed.

(* ------------------------------------------------------------------ *)
(** ** Beyond the claims: what is sent on the channel *)

Lemma and_then_sent {A : Type} (first next : emit A) (m : A) :
  In m (fst (and_then first next)) -> In m (fst first) \/ In m (fst next).
Proof.
  destruct first as [sent [[]| msg | msg]]; simpl; auto.
  intro H. apply in_app_or in H. exact H.
Qed.

Lemma for_each_sent {A X : Type} (P : A -> Prop) (body : nat -> X -> emit A) :
  (forall i x m, In m (fst (body i x)) -> P m) ->
  forall xs i m, In m (fst (for_each body i xs)) -> P m.
Proof.
  intros Hbody. induction xs as [|x xs IH]; intros i m H; simpl in H.
  - contradiction.
  - apply and_then_sent in H. destruct H as [H|H]; eauto.
Qed.

Lemma emit_after_sent {A X : Type} (run : outcome X) (k : X -> emit A) (m : A) :
  In m (fst (emit_after run k)) -> exists x, run = Returns x /\ In m (fst (k x)).
Proof.
  destruct run as [x| msg | msg]; simpl; try contradiction. eauto.
Qed.

(** What [MustNewConstMetric] lets through. *)
Lemma MustNewConstMetric_sent (d : option Desc) (valueType : ValueType)
    (value : float) (labels : list string) (m : ConstMetric) :
  In m (fst (send (MustNewConstMetric d valueType value labels))) ->
  exists d', d = Some d'
             /\ m = mkConstMetric d' valueType value labels
             /\ length labels = length (labelNames d')
             /\ forallb utf8_ValidString labels = true.
Proof.
  unfold MustNewConstMetric. destruct d as [d'|]; simpl; [|contradiction].
  destruct (Nat.eqb (length labels) (length (labelNames d'))) eqn:Hlen; simpl;
    [|contradiction].
  destruct (forallb utf8_ValidString labels) eqn:Hutf; simpl; [|contradiction].
  intros [<-|[]]. exists d'. apply Nat.eqb_eq in Hlen. auto.
Qed.

Lemma V3_descriptor_is_listed (name : string) (d : Desc) :
  V3.metricDescriptions name = Some d ->
  In d (map snd V3.metricDescriptions_entries).
Proof.
  unfold V3.metricDescriptions.
  destruct (find (fun entry => String.eqb (fst entry) name)
                 V3.metricDescriptions_entries) as [[k d']|] eqn:E;
    cbn [option_map]; [|discriminate].
  intro H. injection H as H. simpl in H. subst d'.
  apply find_some in E. destruct E as [Hin _].
  apply (in_map snd) in Hin. exact Hin.
Qed.

Lemma V26_updateMetrics_sent (data : V26.QualityMetricLensData) (m : ConstMetric) :
  In m (fst (V26.updateMetrics data)) ->
  In (desc m) V26.metricDescriptions /\ announced V26.Describe m.
Proof.
  set (P := fun m : ConstMetric =>
              In (desc m) V26.metricDescriptions /\ announced V26.Describe m).
  change (In m (fst (V26.updateMetrics data)) -> P m).
  unfold V26.updateMetrics. apply (@for_each_sent _ _ P). clear m.
  intros i filter m. unfold V26.updateMetrics_filter.
  apply (@for_each_sent _ _ P). clear m.
  intros j row m H. apply emit_after_sent in H. destruct H as (title & _ & H).
  revert H. unfold V26.updateMetrics_dimension.
  apply (@for_each_sent _ _ P). clear m.
  intros k v m H. apply emit_after_sent in H. destruct H as (d & Hd & H).
  apply MustNewConstMetric_sent in H. destruct H as (d' & E & -> & Hlen & Hutf).
  injection E as <-. unfold at_index in Hd.
  destruct (nth_error V26.metricDescriptions k) as [d0|] eqn:Hk; [|discriminate].
  injection Hd as ->. apply nth_error_In in Hk.
  split; [exact Hk|]. unfold announced. cbn [desc valType labelValues].
  split; [|split; [|split]]; auto.
  unfold V26.Describe. apply in_or_app. auto.
Qed.

Lemma V3_updateMetrics_sent (data : V3.MetricsData) (m : ConstMetric) :
  In m (fst (V3.updateMetrics data)) ->
  In (desc m) (map snd V3.metricDescriptions_entries) /\ announced V3.Describe m.
Proof.
  set (P := fun m : ConstMetric =>
              In (desc m) (map snd V3.metricDescriptions_entries)
              /\ announced V3.Describe m).
  change (In m (fst (V3.updateMetrics data)) -> P m).
  unfold V3.updateMetrics. apply (@for_each_sent _ _ P). clear m.
  intros j dimension m. unfold V3.updateMetrics_dimension.
  apply (@for_each_sent _ _ P). clear m.
  intros k metric m H.
  apply MustNewConstMetric_sent in H. destruct H as (d & E & -> & Hlen & Hutf).
  apply V3_descriptor_is_listed in E.
  split; [exact E|]. unfold announced. cbn [desc valType labelValues].
  split; [|split; [|split]]; auto.
  unfold V3.Describe. apply in_or_app. auto.
Qed.

Lemma liveness_announced (described : list Desc) (v : float) :
  In exporterUp described -> announced described (liveness v).
Proof. intro H. unfold announced. simpl. auto. Qed.

Section Sent.

Context {bytes : Type} {parser : JsonParser bytes}.

(** The three ways a v2.6 [Collect] goes. *)
Lemma V26_Collect_cases (resp : upstream bytes) :
  V26.Collect resp = ([liveness 0], Returns tt)
  \/ exists data,
       V26.getQualityMetriclens resp = Returns (inl data)
       /\ V26.Collect resp
          = (liveness 1 :: fst (V26.updateMetrics data), snd (V26.updateMetrics data)).
Proof.
  destruct (V26_parse_returns resp) as [[data|err] E].
  - right. exists data. split; [exact E|]. unfold V26.Collect. rewrite E.
    destruct (V26.updateMetrics data). reflexivity.
  - left. exact (V26_Collect_error _ E).
Qed.

(** The ways a v3 [Collect] goes. *)
Lemma V3_Collect_cases (resp : upstream bytes) :
  V3.Collect resp = ([liveness 0], Returns tt)
  \/ (exists msg, V3.Collect resp = ([], Exits msg))
  \/ exists data,
       V3.getQualityMetriclens resp = Returns (inl data)
       /\ V3.Collect resp
          = (liveness 1 :: fst (V3.updateMetrics data), snd (V3.updateMetrics data)).
Proof.
  destruct (V3.getQualityMetriclens resp) as [[data|err]| msg | msg] eqn:E.
  - right. right. exists data. split; [reflexivity|]. unfold V3.Collect. rewrite E.
    destruct (V3.updateMetrics data). reflexivity.
  - left. exact (V3_Collect_error _ E).
  - right. left. exists msg. unfold V3.Collect. rewrite E. reflexivity.
  - exfalso. exact (V3_parse_no_panic _ E).
Qed.

End Sent.

(** X6.  Whatever the response, every sample [Collect] sends was announced
    by [Describe]: its descriptor is among those [Describe] sends, it is a
    gauge, and it carries one valid UTF-8 value per label name of its
    descriptor.  This holds in both variants, also for the samples sent
    before a panic. *)
Theorem X6_collect_sends_what_describe_announced :
  forall (bytes : Type) (parser : JsonParser bytes) (resp : upstream bytes)
         (m : ConstMetric),
    (In m (fst (V26.Collect resp)) -> announced V26.Describe m)
    /\ (In m (fst (V3.Collect resp)) -> announced V3.Describe m).
Proof.
  intros bytes parser resp m.
  assert (Up26 : In exporterUp V26.Describe)
    by (unfold V26.Describe; apply in_or_app; simpl; auto).
  assert (Up3 : In exporterUp V3.Describe)
    by (unfold V3.Describe; apply in_or_app; simpl; auto).
  split; intro H.
  - destruct (V26_Collect_cases resp) as [E|(data & _ & E)]; rewrite E in H; simpl in H.
    + destruct H as [<-|[]]. apply liveness_announced, Up26.
    + destruct H as [<-|H]; [apply liveness_announced, Up26|].
      apply (V26_updateMetrics_sent data), H.
  - destruct (V3_Collect_cases resp) as [E|[(msg & E)|(data & _ & E)]];
      rewrite E in H; simpl in H.
    + destruct H as [<-|[]]. apply liveness_announced, Up3.
    + contradiction.
    + destruct H as [<-|H]; [apply liveness_announced, Up3|].
      apply (V3_updateMetrics_sent data), H.
Qed.

(** X7.  A scrape has at most one liveness sample, and it comes first.  In
    both variants [Collect] either sends the liveness sample 0 alone and
    returns, or sends the liveness sample 1 followed by data samples only
    (none of them on the descriptor [up]) and then returns or panics; the v3
    variant may also end the process having sent nothing. *)
Theorem X7_liveness_comes_first_and_once :
  forall (bytes : Type) (parser : JsonParser bytes) (resp : upstream bytes),
    (V26.Collect resp = ([liveness 0], Returns tt)
     \/ exists samples o,
          V26.Collect resp = (liveness 1 :: samples, o)
          /\ Forall (fun m => desc m <> exporterUp) samples
          /\ (o = Returns tt \/ exists msg, o = Panics msg))
    /\ (V3.Collect resp = ([liveness 0], Returns tt)
        \/ (exists msg, V3.Collect resp = ([], Exits msg))
        \/ exists samples o,
             V3.Collect resp = (liveness 1 :: samples, o)
             /\ Forall (fun m => desc m <> exporterUp) samples
             /\ (o = Returns tt \/ exists msg, o = Panics msg)).
Proof.
  intros bytes parser resp.
  assert (Hup : forall m, labelNames (desc m) = variableLabels -> desc m <> exporterUp).
  { intros m H E. rewrite E in H. discriminate H. }
  split.
  - destruct (V26_Collect_cases resp) as [E|(data & _ & E)]; [left; exact E|].
    right. exists (fst (V26.updateMetrics data)), (snd (V26.updateMetrics data)).
    split; [exact E | split].
    + apply Forall_forall. intros m Hm. apply Hup.
      apply V26_descriptors_have_two_labels.
      apply (V26_updateMetrics_sent data), Hm.
    + destruct (V26_emit_outcome data) as [Hok Hko].
      destruct (passes data).
      * left. rewrite Hok; reflexivity.
      * right. destruct Hko as (sent & msg & Ep); [reflexivity|].
        rewrite Ep. simpl. eauto.
  - destruct (V3_Collect_cases resp) as [E|[E|(data & _ & E)]];
      [left; exact E | right; left; exact E |].
    right. right.
    exists (fst (V3.updateMetrics data)), (snd (V3.updateMetrics data)).
    split; [exact E | split].
    + apply Forall_forall. intros m Hm. apply Hup.
      destruct (V3_updateMetrics_sent data m Hm) as [Hin _].
      apply in_map_iff in Hin. destruct Hin as ([k d] & Ed & Hin). simpl in Ed. subst d.
      unfold V3.metricDescriptions_entries in Hin. simpl in Hin.
      repeat (destruct Hin as [Hin|Hin]; [injection Hin as _ <-; reflexivity|]).
      contradiction.
    + destruct (V3_emit_outcome data) as [Hok Hko].
      destruct (v3_passes data).
      * left. rewrite Hok; reflexivity.
      * right. destruct Hko as (sent & msg & Ep); [reflexivity|].
        rewrite Ep. simpl. eauto.
Qed.

(* ------------------------------------------------------------------ *)
(** ** Beyond the claims: a scrape of a 200 response, from end to end *)

(** X8.  A v2.6 scrape of a 200 response goes one of three ways, decided by
    the payload alone.  A warm-up entry: liveness 0 alone.  No warm-up entry
    and a result the emitter gets through: liveness 1, then the aligned
    samples of exactly what was read, and a return.  Otherwise: liveness 1,
    some samples, and a panic. *)
Theorem X8_v26_scrape_of_200 :
  forall (bytes : Type) (parser : JsonParser bytes) (body : bytes),
    (existsb no_error (warmup_calls body) = true ->
     V26.Collect (Response 200 body) = ([liveness 0], Returns tt))
    /\ (existsb no_error (warmup_calls body) = false ->
        passes (read_result body) = true ->
        V26.Collect (Response 200 body)
        = (liveness 1 :: aligned (read_result body), Returns tt))
    /\ (existsb no_error (warmup_calls body) = false ->
        passes (read_result body) = false ->
        exists sent msg,
          V26.Collect (Response 200 body) = (liveness 1 :: sent, Panics msg)).
Proof.
  intros bytes parser body. unfold V26.Collect. rewrite V26_parse_200.
  destruct (V26_emit_outcome (read_result body)) as [Hok Hko].
  split; [|split].
  - intros ->. reflexivity.
  - intros -> Hp. rewrite (Hok Hp). reflexivity.
  - intros -> Hp. destruct (Hko Hp) as (sent & msg & E). rewrite E.
    exists sent, msg. reflexivity.
Qed.

(** X9.  A v3 scrape of a 200 response goes one of three ways, decided by
    the payload alone.  A row the parser does not get past: the process
    ends and nothing is sent, not even the liveness sample.  Rows all read
    and a result the emitter gets through: liveness 1, one sample per metric
    entry, and a return.  Otherwise: liveness 1, some samples, and a panic;
    this is the case as soon as some metric entry of the payload has a key
    without a descriptor. *)
Theorem X9_v3_scrape_of_200 :
  forall (bytes : Type) (parser : JsonParser bytes) (body : bytes),
    (forallb v3_row_survives (v3_row_calls body) = false ->
     exists msg, V3.Collect (Response 200 body) = ([], Exits msg))
    /\ (forallb v3_row_survives (v3_row_calls body) = true ->
        v3_passes (v3_result_of body) = true ->
        V3.Collect (Response 200 body)
        = (liveness 1 :: v3_samples (v3_result_of body), Returns tt))
    /\ (forallb v3_row_survives (v3_row_calls body) = true ->
        v3_passes (v3_result_of body) = false ->
        exists sent msg,
          V3.Collect (Response 200 body) = (liveness 1 :: sent, Panics msg))
    /\ (forallb v3_row_survives (v3_row_calls body) = true ->
        forall call entry,
          In call (v3_row_calls body) ->
          In entry (ObjectEach (fst call) ["metrics"]) ->
          V3.metricDescriptions (fst entry) = None ->
          exists sent msg,
            V3.Collect (Response 200 body) = (liveness 1 :: sent, Panics msg)).
Proof.
  intros bytes parser body. unfold V3.Collect.
  destruct (V3_parse_200 body) as [Hret Hexit].
  destruct (V3_emit_outcome (v3_result_of body)) as [Hok Hko].
  assert (Hpanic : forallb v3_row_survives (v3_row_calls body) = true ->
                   v3_passes (v3_result_of body) = false ->
                   exists sent msg,
                     match V3.getQualityMetriclens (Response 200 body) with
                     | Returns (inl data) =>
                         and_then
                           (send (MustNewConstMetric (Some exporterUp) GaugeValue 1 []))
                           (V3.updateMetrics data)
                     | Returns (inr _) =>
                         send (MustNewConstMetric (Some exporterUp) GaugeValue 0 [])
                     | Exits msg => ([], Exits msg)
                     | Panics msg => ([], Panics msg)
                     end = (liveness 1 :: sent, Panics msg)).
  { intros Hs Hp. rewrite (Hret Hs). destruct (Hko Hp) as (sent & msg & E).
    rewrite E. exists sent, msg. reflexivity. }
  split; [|split; [|split]].
  - intro Hs. destruct (Hexit Hs) as [msg E]. rewrite E. eauto.
  - intros Hs Hp. rewrite (Hret Hs), (Hok Hp). reflexivity.
  - exact Hpanic.
  - intros Hs call entry Hcall Hentry Hnone. apply (Hpanic Hs).
    destruct (v3_passes (v3_result_of body)) eqn:E; [|reflexivity].
    unfold v3_passes in E. rewrite forallb_forall in E.
    assert (Hd : In (v3_dimension call) (V3.dimensions (v3_result_of body))).
    { unfold v3_result_of. simpl. apply in_map, Hcall. }
    specialize (E _ Hd). unfold v3_row_passes in E. rewrite forallb_forall in E.
    assert (Hm : In (v3_metric entry) (V3.metrics (v3_dimension call))).
    { unfold v3_dimension. simpl. apply in_map, Hentry. }
    specialize (E _ Hm). unfold v3_metric_passes, v3_recognized, v3_metric in E.
    simpl in E. rewrite Hnone in E. discriminate E.
Qed.

(* ------------------------------------------------------------------ *)
(** ** Beyond the claims: the v3 extraction rules *)

Lemma V3_unrecognized_name (name : string) :
  V3.metricDescriptions name = None ->
  forall key, In key (map fst V3.metricDescriptions_entries) ->
              String.eqb name key = false.
Proof.
  unfold V3.metricDescriptions.
  destruct (find (fun entry => String.eqb (fst entry) name)
                 V3.metricDescriptions_entries) as [[k d]|] eqn:E;
    cbn [option_map]; [discriminate|].
  intros _ key Hkey. apply in_map_iff in Hkey. destruct Hkey as (entry & <- & Hin).
  rewrite String.eqb_sym. exact (find_none _ _ E entry Hin).
Qed.

Section Rules.

Context {bytes : Type} {parser : JsonParser bytes}.

Lemma V3_switch_default (name : string) (value : bytes) (err : option error) :
  V3.metricDescriptions name = None ->
  V3.switch_metricName name value err = (0%float, err).
Proof.
  intro H. pose proof (V3_unrecognized_name name H) as Hk.
  unfold V3.switch_metricName.
  rewrite !Hk by (simpl; tauto). reflexivity.
Qed.

End Rules.

(** X11.  The [bitrate] metric is always recorded as 0 when [GetFloat]
    gives 0 with its errors, as the library does: a [bps] that reads is
    never copied (the assignment is made only under [err != nil]), and one
    that does not read contributes 0 / 1000.  The entry never sets [err]. *)
Theorem X11_v3_bitrate_is_always_zero :
  forall (bytes : Type) (parser : JsonParser bytes) (value : bytes)
         (ms : list V3.Metric),
    (forall f e, GetFloat value ["bps"] = (f, Some e) -> f = 0%float) ->
    V3.metricsCallback (None, ms) ("bitrate", value)
    = Returns (None, ms ++ [V3.mkMetric "bitrate" 0]).
Proof.
  intros bytes parser value ms Hlaw.
  unfold V3.metricsCallback, V3.switch_metricName. simpl.
  destruct (GetFloat value ["bps"]) as [bps [e|]] eqn:E.
  - rewrite (Hlaw bps e eq_refl). reflexivity.
  - reflexivity.
Qed.

(* ------------------------------------------------------------------ *)
(** ** Beyond the claims: the request *)

Lemma append_empty (s : string) : (s ++ "")%string = s.
Proof. induction s as [|c s IH]; simpl; congruence. Qed.

Lemma append_assoc (s t u : string) :
  ((s ++ t) ++ u)%string = (s ++ t ++ u)%string.
Proof. induction s as [|c s IH]; simpl; congruence. Qed.

Lemma metric_parameters_cons (name : string) (names : list string) :
  metric_parameters (name :: names)
  = ("&metric=" ++ name ++ metric_parameters names)%string.
Proof.
  unfold metric_parameters. destruct names as [|n names]; simpl.
  - now rewrite append_empty.
  - reflexivity.
Qed.

Lemma metric_parameters_loop (names : list string) :
  forall start : string,
    fold_left (fun endpoint metric : string =>
                 (endpoint ++ "&metric=" ++ metric)%string) names start
    = (start ++ metric_parameters names)%string.
Proof.
  induction names as [|name names IH]; intro start.
  - simpl. now rewrite append_empty.
  - cbn [fold_left]. rewrite IH, metric_parameters_cons.
    rewrite append_assoc. reflexivity.
Qed.

(** X12.  The v3 request names the metrics as repeated [metric] query
    parameters appended after the fixed query, one per entry of the array
    [metrics], in declaration order; base URL, API version, dimension name
    and filter id are put in as they are, without escaping. *)
Theorem X12_v3_request_names_the_metrics :
  forall e : V3.Exporter,
    V3.qualityMetriclensEndpoint e
    = (V3.convivaBaseURL e ++ "/insights/" ++ V3.convivaAPIVersion e
         ++ "/real-time-metrics/custom-selection/group-by/"
         ++ V3.convivaDimensionName e
         ++ "?minutes=2&granularity=PT1M&filter_id=" ++ V3.convivaFilterID e
         ++ metric_parameters V3.requested_metrics)%string
    /\ metric_parameters V3.requested_metrics
       = "&metric=attempts&metric=video-start-failures&metric=exit-before-video-starts&metric=plays&metric=video-start-time&metric=rebuffering-ratio&metric=bitrate&metric=video-playback-failures&metric=ended-plays&metric=connection-induced-rebuffering-ratio".
Proof.
  intro e. split; [|reflexivity].
  unfold V3.qualityMetriclensEndpoint. rewrite metric_parameters_loop.
  repeat rewrite append_assoc. reflexivity.
Qed.

(* ------------------------------------------------------------------ *)
(** ** The properties beyond the claims, on documents *)

(** X2 on a payload with one warm-up entry. *)
Lemma X2_v26_warming_up_witness :
  existsb no_error (warmup_calls Samples.v26_warming_payload) = true
  /\ V26.getQualityMetriclens (Response 200 Samples.v26_warming_payload)
     = Returns (inr (errors_New "filter is warming up"))
  /\ V26.Collect (Response 200 Samples.v26_warming_payload)
     = ([liveness 0], Returns tt).
Proof.
  split; [reflexivity|].
  apply (X2_v26_warming_up Doc.doc_parser Samples.v26_warming_payload).
  reflexivity.
Defined.

(** X4 on a result with three titles and two rows, and on one with one
    title and two rows. *)
Lemma X4_v26_emitter_returns_or_panics_witness :
  V26.updateMetrics
    (V26.mkQualityMetricLensData
       [V26.mkFilterTable "123"
          [V26.mkDimension [120%float; 1.5%float]; V26.mkDimension [80%float]]]
       ["chrome"; "firefox"; "safari"])
  = (aligned
       (V26.mkQualityMetricLensData
          [V26.mkFilterTable "123"
             [V26.mkDimension [120%float; 1.5%float]; V26.mkDimension [80%float]]]
          ["chrome"; "firefox"; "safari"]),
     Returns tt)
  /\ panicked
       (V26.updateMetrics
          (V26.mkQualityMetricLensData
             [V26.mkFilterTable "123"
                [V26.mkDimension [120%float]; V26.mkDimension [80%float]]]
             ["chrome"])).
Proof.
  split.
  - apply (X4_v26_emitter_returns_or_panics
             (V26.mkQualityMetricLensData
                [V26.mkFilterTable "123"
                   [V26.mkDimension [120%float; 1.5%float]; V26.mkDimension [80%float]]]
                ["chrome"; "firefox"; "safari"])).
    reflexivity.
  - apply (X4_v26_emitter_returns_or_panics
             (V26.mkQualityMetricLensData
                [V26.mkFilterTable "123"
                   [V26.mkDimension [120%float]; V26.mkDimension [80%float]]]
                ["chrome"])).
    reflexivity.
Defined.

(** X5 on a result with a recognized metric, and on one with the metric
    [foo]. *)
Lemma X5_v3_emitter_returns_or_panics_witness :
  V3.updateMetrics
    (V3.mkMetricsData "myfilter" "Browser"
       [V3.mkDimension "chrome" [V3.mkMetric "attempts" 120]])
  = (v3_samples
       (V3.mkMetricsData "myfilter" "Browser"
          [V3.mkDimension "chrome" [V3.mkMetric "attempts" 120]]),
     Returns tt)
  /\ panicked
       (V3.updateMetrics
          (V3.mkMetricsData "myfilter" "Browser"
             [V3.mkDimension "chrome"
                [V3.mkMetric "attempts" 120; V3.mkMetric "foo" 0]])).
Proof.
  split.
  - apply (X5_v3_emitter_returns_or_panics
             (V3.mkMetricsData "myfilter" "Browser"
                [V3.mkDimension "chrome" [V3.mkMetric "attempts" 120]])).
    reflexivity.
  - apply (X5_v3_emitter_returns_or_panics
             (V3.mkMetricsData "myfilter" "Browser"
                [V3.mkDimension "chrome"
                   [V3.mkMetric "attempts" 120; V3.mkMetric "foo" 0]])).
    reflexivity.
Defined.

(** X6 on the first data sample of a v2.6 scrape that ends in a panic, and
    on the liveness sample of a v3 scrape. *)
Lemma X6_collect_sends_what_describe_announced_witness :
  announced V26.Describe
    (gauge (NewDesc "conviva_experience_insights_attempts"
              "Attempts counts all attempts to play a video which are initiated when a viewer clicks play or a video auto-plays."
              variableLabels)
           120 "123" "chrome")
  /\ announced V3.Describe (liveness 1).
Proof.
  split.
  - apply (X6_collect_sends_what_describe_announced Doc.doc_parser
             (Response 200 Samples.v26_short_titles_payload)).
    simpl. right. left. reflexivity.
  - apply (X6_collect_sends_what_describe_announced Doc.doc_parser
             (Response 200 Samples.v3_full_payload)).
    simpl. left. reflexivity.
Defined.

(** X8 on a warming-up payload, a well-formed one, and one with more rows
    than titles. *)
Lemma X8_v26_scrape_of_200_witness :
  V26.Collect (Response 200 Samples.v26_warming_payload)
  = ([liveness 0], Returns tt)
  /\ V26.Collect (Response 200 Samples.v26_full_payload)
     = (liveness 1 :: aligned (read_result Samples.v26_full_payload), Returns tt)
  /\ exists sent msg,
       V26.Collect (Response 200 Samples.v26_short_titles_payload)
       = (liveness 1 :: sent, Panics msg).
Proof.
  split; [|split].
  - apply (X8_v26_scrape_of_200 Doc.doc_parser Samples.v26_warming_payload).
    reflexivity.
  - apply (X8_v26_scrape_of_200 Doc.doc_parser Samples.v26_full_payload);
      reflexivity.
  - apply (X8_v26_scrape_of_200 Doc.doc_parser Samples.v26_short_titles_payload);
      reflexivity.
Defined.

(** X9 on a payload with an unreadable metric before a sibling, a
    well-formed one, and one with the key [foo]. *)
Lemma X9_v3_scrape_of_200_witness :
  (exists msg,
      V3.Collect (Response 200 Samples.v3_unreadable_first_payload)
      = ([], Exits msg))
  /\ V3.Collect (Response 200 Samples.v3_full_payload)
     = (liveness 1 :: v3_samples (v3_result_of Samples.v3_full_payload), Returns tt)
  /\ exists sent msg,
       V3.Collect (Response 200 Samples.v3_unknown_key_payload)
       = (liveness 1 :: sent, Panics msg).
Proof.
  split; [|split].
  - apply (X9_v3_scrape_of_200 Doc.doc_parser Samples.v3_unreadable_first_payload).
    reflexivity.
  - apply (X9_v3_scrape_of_200 Doc.doc_parser Samples.v3_full_payload);
      reflexivity.
  - destruct (X9_v3_scrape_of_200 Doc.doc_parser Samples.v3_unknown_key_payload)
      as (_ & _ & _ & H).
    apply (H eq_refl
             (Samples.v3_row "chrome"
                [ ("attempts", Doc.JObject [("count", Samples.number "120" 120)]);
                  ("foo", Doc.JObject [("count", Samples.number "1" 1)]) ],
              None)
             ("foo", Doc.JObject [("count", Samples.number "1" 1)])).
    + simpl. left. reflexivity.
    + simpl. right. left. reflexivity.
    + reflexivity.
Defined.

(** X11 on a [bitrate] entry whose [bps] is 5000. *)
Lemma X11_v3_bitrate_is_always_zero_witness :
  V3.metricsCallback (None, [])
    ("bitrate", Doc.JObject [("bps", Samples.number "5000" 5000)])
  = Returns (None, [V3.mkMetric "bitrate" 0]).
Proof.
  apply (X11_v3_bitrate_is_always_zero Doc.doc_parser
           (Doc.JObject [("bps", Samples.number "5000" 5000)]) []).
  intros f e H. vm_compute in H. discriminate H.
Defined.

(* ------------------------------------------------------------------ *)
(** ** The v3 rules, said of the payload *)

Lemma forallb_pointwise {A : Type} (p q : A -> bool) (xs : list A) :
  (forall x, p x = q x) -> forallb p xs = forallb q xs.
Proof. intro H. induction xs as [|x xs IH]; simpl; congruence. Qed.


Lemma v3_field_without_rule (name : string) :
  v3_field name = None ->
  forall key, In key (map fst copied_fields) -> String.eqb name key = false.
Proof.
  unfold v3_field.
  destruct (find (fun rule => String.eqb (fst rule) name) copied_fields)
    as [[k f]|] eqn:E; cbn [option_map]; [discriminate|].
  intros _ key Hkey. apply in_map_iff in Hkey. destruct Hkey as (rule & <- & Hin).
  rewrite String.eqb_sym. exact (find_none _ _ E rule Hin).
Qed.


Section PayloadRules.

Context {bytes : Type} {parser : JsonParser bytes}.

(** The [switch] against the rules: with a rule, the call of [GetFloat] on
    the sub-field; without one, the value of [v3_value] and [err] as it
    was. *)
Lemma V3_switch_by_rule (entry : string * bytes) :
  V3.switch_metricName (fst entry) (snd entry) None
  = match v3_field (fst entry) with
    | Some field => GetFloat (snd entry) [field]
    | None => (v3_value entry, None)
    end.
Proof.
  destruct entry as [name value]. unfold v3_value. cbn [fst snd].
  destruct (v3_field name) as [field|] eqn:Ef.
  - apply V3_switch_copied, v3_field_rule, Ef.
  - pose proof (v3_field_without_rule name Ef) as Hk.
    unfold V3.switch_metricName.
    rewrite (Hk "attempts") by (simpl; tauto).
    rewrite (Hk "connection_induced_rebuffering_ratio") by (simpl; tauto).
    rewrite (Hk "ended_plays") by (simpl; tauto).
    rewrite (Hk "exit_before_video_starts") by (simpl; tauto).
    rewrite (Hk "plays") by (simpl; tauto).
    rewrite (Hk "rebuffering_ratio") by (simpl; tauto).
    rewrite (Hk "video_playback_failures") by (simpl; tauto).
    rewrite (Hk "video_start_failures") by (simpl; tauto).
    rewrite (Hk "video_start_time") by (simpl; tauto).
    destruct (String.eqb name "bitrate"); [|reflexivity].
    destruct (GetFloat value ["bps"]) as [bps [e|]]; reflexivity.
Qed.

Lemma v3_metric_recorded (entry : string * bytes) :
  v3_metric entry = v3_recorded entry.
Proof.
  unfold v3_metric, v3_recorded. rewrite V3_switch_by_rule. unfold v3_value.
  destruct (v3_field (fst entry)); reflexivity.
Qed.

Lemma leaves_no_error_read (entry : string * bytes) :
  leaves_no_error entry = v3_entry_read entry.
Proof.
  unfold leaves_no_error, v3_entry_read. rewrite V3_switch_by_rule.
  destruct (v3_field (fst entry)); reflexivity.
Qed.

Lemma v3_row_survives_read (call : bytes * option error) :
  v3_row_survives call = v3_row_read call.
Proof.
  unfold v3_row_survives, v3_row_read. f_equal.
  apply forallb_pointwise, leaves_no_error_read.
Qed.

Lemma v3_result_read (body : bytes) : v3_result_of body = v3_read_result body.
Proof.
  unfold v3_result_of, v3_read_result. f_equal.
  apply map_ext. intro call. unfold v3_dimension, v3_read_dimension. f_equal.
  apply map_ext, v3_metric_recorded.
Qed.

(** The v3 parser on a 200 response, by what the payload holds. *)
Lemma V3_parse_read (body : bytes) :
  (forallb v3_row_read (v3_row_calls body) = true ->
   V3.getQualityMetriclens (Response 200 body) = Returns (inl (v3_read_result body)))
  /\ (forallb v3_row_read (v3_row_calls body) = false ->
      exists msg, V3.getQualityMetriclens (Response 200 body) = Exits msg).
Proof.
  rewrite <- (forallb_pointwise _ _ (v3_row_calls body) v3_row_survives_read).
  rewrite <- v3_result_read. apply V3_parse_200.
Qed.


End PayloadRules.



(** Every sample of the aligned lists is a data sample. *)
Lemma aligned_are_data_samples (data : V26.QualityMetricLensData) :
  Forall (data_sample V26.metricDescriptions) (aligned data).
Proof.
  apply Forall_forall. intros m Hm. unfold aligned in Hm.
  apply in_flat_map in Hm. destruct Hm as (filter & _ & Hm).
  unfold aligned_filter in Hm. apply in_flat_map in Hm.
  destruct Hm as ([title row] & _ & Hm).
  unfold aligned_row in Hm. cbn [fst snd] in Hm.
  apply in_map_iff in Hm. destruct Hm as ([d v] & <- & Hdv).
  apply in_combine_l in Hdv. unfold data_sample, gauge.
  cbn [desc valType labelValues fst snd].
  split; [exact Hdv | split; [|split; reflexivity]].
  intro E. pose proof (V26_descriptors_have_two_labels Hdv) as Hl.
  rewrite E in Hl. discriminate Hl.
Qed.

Lemma v3_samples_are_data_samples (data : V3.MetricsData) :
  Forall (data_sample (map snd V3.metricDescriptions_entries)) (v3_samples data).
Proof.
  apply Forall_forall. intros m Hm. unfold v3_samples in Hm.
  apply in_flat_map in Hm. destruct Hm as (dimension & _ & Hm).
  apply in_flat_map in Hm. destruct Hm as (metric & _ & Hm).
  unfold v3_sample in Hm.
  destruct (V3.metricDescriptions (V3.metricName metric)) as [d|] eqn:E;
    [|contradiction].
  destruct Hm as [<-|[]]. unfold data_sample, gauge.
  cbn [desc valType labelValues].
  split; [eapply V3_descriptor_is_listed; eassumption | split; [|split; reflexivity]].
  intro Eup. pose proof (V3_descriptors_have_two_labels _ E) as Hl.
  rewrite Eup in Hl. discriminate Hl.
Qed.

(* ------------------------------------------------------------------ *)
(** ** Beyond the claims: when the v3 parser returns, by the payload *)

(** X3.  For every 200 response the v3 parser returns exactly when every
    row of the data region is delivered without error, has a string at
    [dimension.value], and has no metric entry, other than its last, whose
    key has a copy rule ([copied_fields]) and whose sub-field [GetFloat]
    cannot read; otherwise it ends the process.  An unreadable [bitrate] or
    an entry under a key without a rule never ends it.  When it returns,
    nothing was passed over: the result has one [Dimension] per row and in it
    one [Metric] per entry under [metrics], in payload order, with the value
    the rule of its key gives. *)
Theorem X3_v3_parser_returns_or_exits :
  forall (bytes : Type) (parser : JsonParser bytes) (body : bytes),
    (forallb v3_row_read (v3_row_calls body) = true ->
     V3.getQualityMetriclens (Response 200 body) = Returns (inl (v3_read_result body)))
    /\ (forallb v3_row_read (v3_row_calls body) = false ->
        exists msg, V3.getQualityMetriclens (Response 200 body) = Exits msg)
    /\ map (fun dimension => map V3.metricName (V3.metrics dimension))
           (V3.dimensions (v3_read_result body))
       = map (fun call => map fst (ObjectEach (fst call) ["metrics"]))
             (v3_row_calls body).
Proof.
  intros bytes parser body.
  destruct (V3_parse_read body) as [Hok Hko].
  split; [exact Hok | split; [exact Hko|]].
  unfold v3_read_result. simpl. rewrite map_map.
  apply map_ext. intro call. unfold v3_read_dimension. simpl.
  rewrite map_map. reflexivity.
Qed.

(** X3 on a payload whose row is read, on one whose first metric
    [attempts] has no [count], and on one whose first metric [bitrate] has
    no [bps]. *)
Lemma X3_v3_parser_returns_or_exits_witness :
  V3.getQualityMetriclens (Response 200 Samples.v3_full_payload)
  = Returns (inl (v3_read_result Samples.v3_full_payload))
  /\ (exists msg,
        V3.getQualityMetriclens (Response 200 Samples.v3_unreadable_first_payload)
        = Exits msg)
  /\ V3.getQualityMetriclens
       (Response 200
          (Samples.v3_payload
             [ Samples.v3_row "chrome"
                 [ ("bitrate", Doc.JObject []);
                   ("plays", Doc.JObject [("percentage", Samples.number "97.5" 97.5)]) ] ]))
     = Returns
         (inl (V3.mkMetricsData "myfilter" "Browser"
                 [ V3.mkDimension "chrome"
                     [ V3.mkMetric "bitrate" 0; V3.mkMetric "plays" 97.5 ] ])).
Proof.
  split; [|split].
  - apply (X3_v3_parser_returns_or_exits Doc.doc_parser Samples.v3_full_payload).
    reflexivity.
  - apply (X3_v3_parser_returns_or_exits Doc.doc_parser
             Samples.v3_unreadable_first_payload).
    reflexivity.
  - apply (X3_v3_parser_returns_or_exits Doc.doc_parser
             (Samples.v3_payload
                [ Samples.v3_row "chrome"
                    [ ("bitrate", Doc.JObject []);
                      ("plays",
                       Doc.JObject [("percentage", Samples.number "97.5" 97.5)]) ] ])).
    reflexivity.
Defined.

(* ------------------------------------------------------------------ *)
(** ** Beyond the claims: the cases of the v3 switch *)

(** X10.  The cases of the v3 [switch] are the keys of
    [metricDescriptions].  An entry whose key has no descriptor falls to the
    default case: it is recorded all the same, with value 0, and leaves
    [err] as it was.  For a key that has a descriptor the [switch] is the
    [bitrate] case, which leaves [err] as it was and gives a thousandth of
    what [GetFloat] returned for [bps] when that read failed and 0 when it
    succeeded, or it is the call of [GetFloat] on the one sub-field that
    [copied_fields] names for the key, value and error as returned. *)
Theorem X10_v3_switch_and_descriptors_agree :
  forall (bytes : Type) (parser : JsonParser bytes) (name : string),
    (V3.metricDescriptions name = None ->
     forall (value : bytes) (ms : list V3.Metric),
       V3.metricsCallback (None, ms) (name, value)
       = Returns (None, ms ++ [V3.mkMetric name 0]))
    /\ (forall d, V3.metricDescriptions name = Some d ->
          (name = "bitrate"
           /\ forall (value : bytes) (err : option error),
                V3.switch_metricName name value err
                = (match GetFloat value ["bps"] with
                   | (bps, Some _) => (bps / 1000)%float
                   | (_, None) => 0%float
                   end, err))
          \/ (exists field,
                In (name, field) copied_fields
                /\ forall (value : bytes) (err : option error),
                     V3.switch_metricName name value err = GetFloat value [field])).
Proof.
  intros bytes parser name. split.
  - intros H value ms. unfold V3.metricsCallback.
    rewrite (V3_switch_default name value None H). reflexivity.
  - intros d H. unfold V3.metricDescriptions in H.
    destruct (find (fun entry => String.eqb (fst entry) name)
                   V3.metricDescriptions_entries) as [[k d']|] eqn:E;
      cbn [option_map] in H; [|discriminate].
    apply find_some in E. destruct E as [Hin Heq]. simpl in Heq.
    apply String.eqb_eq in Heq. subst k.
    unfold V3.metricDescriptions_entries in Hin. simpl in Hin.
    repeat (destruct Hin as [Hin|Hin];
            [injection Hin as <- _;
             first [ left; split; [reflexivity|];
                     intros value err; unfold V3.switch_metricName; simpl;
                     destruct (GetFloat value ["bps"]) as [bps [e|]]; reflexivity
                   | right; eexists; split;
                     [unfold copied_fields; simpl; tauto | intros; reflexivity] ]|]).
    contradiction.
Qed.

(** X10 on the keys [foo] and [plays]: the case of [plays] is the call of
    [GetFloat] on [percentage]. *)
Lemma X10_v3_switch_and_descriptors_agree_witness :
  V3.metricsCallback (None, [])
    ("foo", Doc.JObject [("count", Samples.number "1" 1)])
  = Returns (None, [V3.mkMetric "foo" 0])
  /\ (forall (value : Doc.json) (err : option error),
        V3.switch_metricName "plays" value err = GetFloat value ["percentage"]).
Proof.
  split.
  - apply (X10_v3_switch_and_descriptors_agree Doc.doc_parser "foo"). reflexivity.
  - destruct (X10_v3_switch_and_descriptors_agree Doc.doc_parser "plays") as [_ H].
    destruct (H (NewDesc "conviva_experience_insights_plays"
                   "Plays (Successful Attempts) is counted when the viewer sees the first frame of video."
                   variableLabels) eq_refl)
      as [[Habs _]|(field & Hin & Hswitch)].
    + discriminate Habs.
    + unfold copied_fields in Hin. simpl in Hin.
      repeat (destruct Hin as [Hin|Hin];
              [first [discriminate Hin | injection Hin as <-; exact Hswitch]|]).
      contradiction.
Defined.

(* ------------------------------------------------------------------ *)
(** ** Beyond the claims: requested names and known names *)

(** X13.  The names the v3 request asks for and the names the v3 parser
    and emitter know differ: a requested name is a key of
    [metricDescriptions] exactly when it has no hyphen, which is so for
    [attempts], [plays] and [bitrate] only.  An entry under any of the other
    seven requested names has no descriptor and no case in the [switch]: it
    falls to the default, which gives the value 0 and leaves [err] as it
    was. *)
Theorem X13_v3_requested_names_and_descriptors :
  forall (bytes : Type) (parser : JsonParser bytes) (name : string),
    In name V3.requested_metrics ->
    (V3.metricDescriptions name = None <-> contains name "-" = true)
    /\ (contains name "-" = false <-> In name ["attempts"; "plays"; "bitrate"])
    /\ (contains name "-" = true ->
        forall (value : bytes) (err : option error),
          V3.switch_metricName name value err = (0%float, err)).
Proof.
  intros bytes parser name H. unfold V3.requested_metrics in H. simpl in H.
  repeat (destruct H as [H|H];
          [subst name; split; [|split];
           [ split; intro H; first [reflexivity | discriminate H]
           | split; intro H;
             first [ simpl; tauto
                   | discriminate H
                   | exfalso; simpl in H;
                     repeat (destruct H as [H|H]; [discriminate H|]); exact H ]
           | intro H; first [discriminate H | intros value err; reflexivity] ]|]).
  contradiction.
Qed.

(** X13 on the requested name [video-start-failures]. *)
Lemma X13_v3_requested_names_and_descriptors_witness :
  (V3.metricDescriptions "video-start-failures" = None
   <-> contains "video-start-failures" "-" = true)
  /\ (contains "video-start-failures" "-" = false
      <-> In "video-start-failures" ["attempts"; "plays"; "bitrate"])
  /\ (contains "video-start-failures" "-" = true ->
      forall (value : Doc.json) (err : option error),
        V3.switch_metricName "video-start-failures" value err = (0%float, err)).
Proof.
  apply (X13_v3_requested_names_and_descriptors Doc.doc_parser
           (name := "video-start-failures")).
  simpl. right. left. reflexivity.
Defined.

(* ------------------------------------------------------------------ *)
(** ** C4: a metric value that cannot be read, from end to end *)



(* ------------------------------------------------------------------ *)
(** ** C8: the samples of a well-formed payload *)

(** C8.  For every well-formed 200 payload with N grouping rows, each
    exposing the full metric set, [Collect] returns after sending exactly
    one liveness sample, valued 1, followed by the samples of the rows and
    nothing else: N x |recognized metrics| samples (N x 15 in the v2.6
    variant, N counted over all filters; N x 10 in the v3 variant), every
    one of them a data sample, that is a gauge on a descriptor of the metric
    table, not on [up], with its two label values.  In particular a payload
    with no row gives the liveness sample 1 and no data sample. *)
Theorem C8_samples_of_well_formed_payload :
  forall (bytes : Type) (parser : JsonParser bytes) (body : bytes),
    (well_formed body = true ->
     V26.Collect (Response 200 body)
     = (liveness 1 :: aligned (result_of body), Returns tt)
     /\ Forall (data_sample V26.metricDescriptions) (aligned (result_of body))
     /\ length V26.metricDescriptions = 15
     /\ length (aligned (result_of body))
        = grouping_rows body * length V26.metricDescriptions
     /\ (grouping_rows body = 0 ->
         V26.Collect (Response 200 body) = ([liveness 1], Returns tt)))
    /\ (v3_well_formed body = true ->
        V3.Collect (Response 200 body)
        = (liveness 1 :: v3_samples (v3_read_result body), Returns tt)
        /\ Forall (data_sample (map snd V3.metricDescriptions_entries))
                  (v3_samples (v3_read_result body))
        /\ length V3.metricDescriptions_entries = 10
        /\ length (v3_samples (v3_read_result body))
           = length (v3_row_calls body) * length V3.metricDescriptions_entries
        /\ (v3_row_calls body = [] ->
            V3.Collect (Response 200 body) = ([liveness 1], Returns tt))).
Proof.
  intros bytes parser body. split; intro H.
  - assert (E : V26.Collect (Response 200 body)
                = (liveness 1 :: aligned (result_of body), Returns tt)).
    { unfold V26.Collect.
      rewrite (V26_parse_well_formed body H).
      rewrite (V26_emit_fits _ (result_fits body H)).
      reflexivity. }
    pose proof (aligned_full_rows body H) as Hlen.
    split; [exact E | split; [apply aligned_are_data_samples | split; [reflexivity|]]].
    split; [exact Hlen|].
    intro Hzero. rewrite E. rewrite Hzero in Hlen.
    destruct (aligned (result_of body)); [reflexivity | discriminate Hlen].
  - assert (E : V3.Collect (Response 200 body)
                = (liveness 1 :: v3_samples (v3_read_result body), Returns tt)).
    { unfold V3.Collect. rewrite <- v3_result_read.
      rewrite (V3_parse_well_formed body H).
      rewrite (V3_emit_well_formed body H).
      reflexivity. }
    pose proof (v3_samples_full_rows body H) as Hlen. rewrite v3_result_read in Hlen.
    split; [exact E | split; [apply v3_samples_are_data_samples | split; [reflexivity|]]].
    split; [exact Hlen|].
    intro Hempty. rewrite E. rewrite Hempty in Hlen.
    destruct (v3_samples (v3_read_result body)); [reflexivity | discriminate Hlen].
Qed.

(** C8 on documents: two full rows in v2.6, one full row in v3, and a
    payload without rows in each variant. *)
Lemma C8_samples_of_well_formed_payload_witness :
  (grouping_rows Samples.v26_full_payload = 2
   /\ V26.Collect (Response 200 Samples.v26_full_payload)
      = (liveness 1 :: aligned (result_of Samples.v26_full_payload), Returns tt)
   /\ Forall (data_sample V26.metricDescriptions)
             (aligned (result_of Samples.v26_full_payload))
   /\ length (aligned (result_of Samples.v26_full_payload)) = 30)
  /\ V26.Collect (Response 200 (Samples.v26_payload ["chrome"] [("123", [])]))
     = ([liveness 1], Returns tt)
  /\ (length (v3_row_calls Samples.v3_full_payload) = 1
      /\ V3.Collect (Response 200 Samples.v3_full_payload)
         = (liveness 1 :: v3_samples (v3_read_result Samples.v3_full_payload),
            Returns tt)
      /\ Forall (data_sample (map snd V3.metricDescriptions_entries))
                (v3_samples (v3_read_result Samples.v3_full_payload))
      /\ length (v3_samples (v3_read_result Samples.v3_full_payload)) = 10)
  /\ V3.Collect (Response 200 (Samples.v3_payload []))
     = ([liveness 1], Returns tt).
Proof.
  split; [|split; [|split]].
  - destruct (C8_samples_of_well_formed_payload Doc.doc_parser Samples.v26_full_payload)
      as [H _].
    destruct (H eq_refl) as (Hc & Hd & _ & Hn & _).
    split; [reflexivity | split; [exact Hc | split; [exact Hd | exact Hn]]].
  - apply (C8_samples_of_well_formed_payload Doc.doc_parser
             (Samples.v26_payload ["chrome"] [("123", [])]));
      reflexivity.
  - destruct (C8_samples_of_well_formed_payload Doc.doc_parser Samples.v3_full_payload)
      as [_ H].
    destruct (H eq_refl) as (Hc & Hd & _ & Hn & _).
    split; [reflexivity | split; [exact Hc | split; [exact Hd | exact Hn]]].
  - apply (C8_samples_of_well_formed_payload Doc.doc_parser (Samples.v3_payload []));
      reflexivity.
Defined.
